(** * node-api-client-base: ApiClient and EntityCrudApi

    A shallow embedding of [lib/ApiClient.js] and [lib/EntityCrudApi.js].
    JavaScript values are a first-order data type; the libraries the code
    calls (lodash, bluebird, form-data, the WHATWG [URL] class, axios) are
    modelled by the functions of the modules [Lodash], [Bluebird], [URL] and
    by the record [World]; the two classes of the repository are the modules
    [ApiClient] and [EntityCrudApi]. *)

From Stdlib Require Import List String Ascii Bool ZArith NArith Lia.
From Stdlib Require Import DecimalString.
Import ListNotations.

Local Open Scope string_scope.
Local Open Scope list_scope.

(** ** JavaScript values *)

Set Warnings "-register-all".

(** State of a promise. *)
Inductive pstatus : Type := Pending | Fulfilled | Rejected.

(** The values the client handles.
    - numbers are the integers among the JS numbers;
    - strings are byte strings, case mapping acts on the ASCII letters;
    - a [Date] is carried by the text [toISOString()] gives;
    - a plain object is the list of its own enumerable string keyed
      properties in iteration order (its keys are not array indices, and it
      has no numeric [length], with which lodash would iterate it as an
      array);
    - a [FormData] instance is the [append] calls it received, in order
      (its boundary is chosen by the [World]);
    - a function object is an identifier, interpreted by the [World], and its
      own enumerable properties;
    - a promise is its state and its value or reason; a promise is never
      fulfilled with another promise. *)
Inductive value : Type :=
| VUndefined
| VNull
| VBool (b : bool)
| VNum (n : Z)
| VStr (s : string)
| VDate (iso : string)
| VArr (xs : list value)
| VObj (props : list (string * value))
| VFormData (entries : list (string * value))
| VFun (id : nat) (props : list (string * value))
| VPromise (st : pstatus) (v : value).

(** Induction over values that reaches the values held in lists. *)
Section value_induction.
Variable P : value -> Prop.
Hypothesis Hundef : P VUndefined.
Hypothesis Hnull : P VNull.
Hypothesis Hbool : forall b, P (VBool b).
Hypothesis Hnum : forall n, P (VNum n).
Hypothesis Hstr : forall s, P (VStr s).
Hypothesis Hdate : forall s, P (VDate s).
Hypothesis Harr : forall xs, Forall P xs -> P (VArr xs).
Hypothesis Hobj : forall props, Forall (fun kv => P (snd kv)) props -> P (VObj props).
Hypothesis Hform : forall es, Forall (fun kv => P (snd kv)) es -> P (VFormData es).
Hypothesis Hfun : forall id props, Forall (fun kv => P (snd kv)) props -> P (VFun id props).
Hypothesis Hprom : forall st v, P v -> P (VPromise st v).

Fixpoint value_nested_ind (v : value) : P v :=
  let on_list :=
    fix on_list (l : list value) : Forall P l :=
      match l with
      | [] => Forall_nil _
      | x :: r => Forall_cons x (value_nested_ind x) (on_list r)
      end in
  let on_props :=
    fix on_props (l : list (string * value)) : Forall (fun kv => P (snd kv)) l :=
      match l with
      | [] => Forall_nil _
      | (k, x) :: r =>
          Forall_cons (P := fun kv => P (snd kv)) (k, x) (value_nested_ind x) (on_props r)
      end in
  match v with
  | VUndefined => Hundef
  | VNull => Hnull
  | VBool b => Hbool b
  | VNum n => Hnum n
  | VStr s => Hstr s
  | VDate s => Hdate s
  | VArr xs => Harr xs (on_list xs)
  | VObj props => Hobj props (on_props props)
  | VFormData es => Hform es (on_props es)
  | VFun id props => Hfun id props (on_props props)
  | VPromise st v => Hprom st v (value_nested_ind v)
  end.
End value_induction.

(** ** Strings *)

Definition lower_ascii (c : ascii) : ascii :=
  let n := nat_of_ascii c in
  if (65 <=? n)%nat && (n <=? 90)%nat then ascii_of_nat (n + 32) else c.

(** [String.prototype.toLowerCase] on byte strings. *)
Fixpoint toLowerCase (s : string) : string :=
  match s with
  | EmptyString => EmptyString
  | String c r => String (lower_ascii c) (toLowerCase r)
  end.

(** Decimal text of an integer, as [String(n)] gives it. *)
Definition string_of_Z (n : Z) : string := NilZero.string_of_int (Z.to_int n).

Definition string_of_nat (n : nat) : string := NilZero.string_of_uint (Nat.to_uint n).

(** [s.split(sep)] for a one character separator: never empty. *)
Fixpoint split_on (sep : ascii) (s : string) : list string :=
  match s with
  | EmptyString => [EmptyString]
  | String c r =>
      if Ascii.eqb c sep then EmptyString :: split_on sep r
      else match split_on sep r with
           | [] => [String c EmptyString]
           | w :: ws => String c w :: ws
           end
  end.

Fixpoint chars (s : string) : list string :=
  match s with
  | EmptyString => []
  | String c r => String c EmptyString :: chars r
  end.

Definition starts_with (p s : string) : bool := String.prefix p s.

Definition drop (n : nat) (s : string) : string := String.substring n (String.length s - n) s.

(** ** The language: property access, conversions *)

(** [ToString] for the primitive values.  [None] for objects, whose text is
    not carried by the model. *)
Definition toString (v : value) : option string :=
  match v with
  | VUndefined => Some "undefined"
  | VNull => Some "null"
  | VBool b => Some (if b then "true" else "false")
  | VNum n => Some (string_of_Z n)
  | VStr s => Some s
  | _ => None
  end.

Fixpoint lookup (key : string) (props : list (string * value)) : option value :=
  match props with
  | [] => None
  | (k, v) :: r => if String.eqb k key then Some v else lookup key r
  end.

Fixpoint indexed_from (i : nat) (xs : list value) : list (string * value) :=
  match xs with
  | [] => []
  | x :: r => (string_of_nat i, x) :: indexed_from (S i) r
  end.

(** Own enumerable string keyed properties, in iteration order.  The
    fields that the libraries keep in [FormData] instances and in promises
    are not carried, nor are the built-in properties of functions. *)
Definition own (v : value) : list (string * value) :=
  match v with
  | VObj props => props
  | VFun _ props => props
  | VArr xs => indexed_from 0 xs
  | VStr s => indexed_from 0 (map VStr (chars s))
  | _ => []
  end.

(** [object[key]] for an [object] that is neither [null] nor [undefined]:
    own properties, and the [length] of arrays and strings. *)
Definition prop (object : value) (key : string) : value :=
  match lookup key (own object) with
  | Some v => v
  | None =>
      match object with
      | VArr xs => if String.eqb key "length" then VNum (Z.of_nat (List.length xs)) else VUndefined
      | VStr s => if String.eqb key "length" then VNum (Z.of_nat (String.length s)) else VUndefined
      | _ => VUndefined
      end
  end.

(** [a === b] where one side is a string literal. *)
Definition strict_eq_str (v : value) (s : string) : bool :=
  match v with
  | VStr t => String.eqb t s
  | _ => false
  end.

Definition instanceofFormData (v : value) : bool :=
  match v with
  | VFormData _ => true
  | _ => false
  end.

(** The error a failed property access, call or URL construction throws. *)
Definition TypeError : value := VObj [("name", VStr "TypeError")].

(** ** lodash *)

Module Lodash.

Definition isNil (v : value) : bool :=
  match v with
  | VUndefined | VNull => true
  | _ => false
  end.

Definition isPlainObject (v : value) : bool :=
  match v with
  | VObj _ => true
  | _ => false
  end.

Definition isObject (v : value) : bool :=
  match v with
  | VUndefined | VNull | VBool _ | VNum _ | VStr _ => false
  | _ => true
  end.

(** [_.isEmpty]: [null] and [undefined] are empty; arrays and strings are
    empty when their length is 0; every other value, a function too, is
    empty when it has no own enumerable string keyed property.  [FormData]
    instances and promises always have such properties, the fields of their
    libraries. *)
Definition isEmpty (v : value) : bool :=
  match v with
  | VUndefined | VNull => true
  | VArr xs => match xs with [] => true | _ => false end
  | VStr s => match s with EmptyString => true | _ => false end
  | VFormData _ | VPromise _ _ => false
  | _ => match own v with [] => true | _ => false end
  end.

Definition keys (v : value) : list string := map fst (own v).

Definition toLower (s : string) : string := toLowerCase s.

(** [_.has(object, key)]: [key] is an own property of [object]. *)
Definition has (object : value) (key : string) : bool :=
  match lookup key (own object) with
  | Some _ => true
  | None =>
      match object with
      | VArr _ | VStr _ => String.eqb key "length"
      | _ => false
      end
  end.

Fixpoint baseGet (object : value) (path : list string) : value :=
  match path with
  | [] => object
  | key :: rest => if isNil object then VUndefined else baseGet (prop object key) rest
  end.

(** [_.get(object, path)], the path given as the list of its keys. *)
Definition get (object : value) (path : list string) : value :=
  match path with
  | [] => VUndefined
  | _ => baseGet object path
  end.

(** [_.get(object, path, defaultValue)]. *)
Definition get_or (object : value) (path : list string) (defaultValue : value) : value :=
  match get object path with
  | VUndefined => defaultValue
  | r => r
  end.

(** The key a path element stands for: [toKey(undefined)] is the text
    [undefined]. *)
Definition toKey (key : option string) : string :=
  match key with
  | Some k => k
  | None => "undefined"
  end.

Fixpoint assoc_set (key : string) (v : value) (props : list (string * value))
  : list (string * value) :=
  match props with
  | [] => [(key, v)]
  | (k, x) :: r => if String.eqb k key then (k, v) :: r else (k, x) :: assoc_set key v r
  end.

(** [object[key] = v].  Plain objects and function objects hold the
    property; on the other kinds of object the model has no place for it. *)
Definition assignValue (object : value) (key : string) (v : value) : value :=
  match object with
  | VObj props => VObj (assoc_set key v props)
  | VFun id props => VFun id (assoc_set key v props)
  | _ => object
  end.

Fixpoint baseSet (nested : value) (path : list string) (v : value) : value :=
  match path with
  | [] => nested
  | key :: rest =>
      match rest with
      | [] => assignValue nested key v
      | _ :: _ =>
          let objValue := prop nested key in
          let newValue := if isObject objValue then objValue else VObj [] in
          assignValue nested key (baseSet newValue rest v)
      end
  end.

(** [_.set(object, path, v)]; the object is returned as it is after the
    update. *)
Definition set (object : value) (path : list string) (v : value) : value :=
  if isObject object then baseSet object path v else object.

(** [_.defaults(object, source)]: a source property is assigned when the
    property of [object] resolves to [undefined]. *)
Definition defaults (object : value) (source : list (string * value)) : value :=
  fold_left
    (fun object kv =>
       match prop object (fst kv) with
       | VUndefined => assignValue object (fst kv) (snd kv)
       | _ => object
       end)
    source object.

(** [_.assign(object, ...sources)]. *)
Definition assign (object : value) (sources : list value) : value :=
  fold_left
    (fun object source =>
       fold_left (fun object kv => assignValue object (fst kv) (snd kv)) (own source) object)
    sources object.

(** [_.merge({}, object, source)] for a [source] whose values are strings:
    values are copied structurally, so the result is [object] (or an empty
    object when it holds no properties) with the source assigned over it. *)
Definition merge (object : value) (source : list (string * value)) : value :=
  fold_left (fun object kv => assignValue object (fst kv) (snd kv)) source (VObj (own object)).

Fixpoint takeWhile {A} (p : A -> bool) (l : list A) : list A :=
  match l with
  | [] => []
  | x :: r => if p x then x :: takeWhile p r else []
  end.

Definition takeRightWhile {A} (p : A -> bool) (l : list A) : list A :=
  rev (takeWhile p (rev l)).

(** [_.slice(array, 0, end)]. *)
Definition slice0 {A} (l : list A) (e : nat) : list A := firstn e l.

(** [_.slice(array, start)]. *)
Definition sliceFrom {A} (l : list A) (start : nat) : list A := skipn start l.

Fixpoint flatten1 (v : value) : list value :=
  match v with
  | VArr xs => List.concat (map flatten1 xs)
  | _ => [v]
  end.

Definition flattenDeep (l : list value) : list value := List.concat (map flatten1 l).

(** [_.join(array, separator)]: [null] and [undefined] give the empty
    text, the other elements their [ToString]. *)
Fixpoint join (l : list value) (sep : string) : option string :=
  match l with
  | [] => Some ""
  | x :: r =>
      match (if isNil x then Some "" else toString x) with
      | None => None
      | Some sx =>
          match r with
          | [] => Some sx
          | _ :: _ =>
              match join r sep with
              | None => None
              | Some sr => Some (sx ++ sep ++ sr)%string
              end
          end
      end
  end.

Definition find {A} (p : A -> bool) (l : list A) : option A := List.find p l.

End Lodash.

(** ** bluebird *)

(** How a promise ends: fulfilled with a result, rejected with a reason, or
    never settled. *)
Inductive settled (A : Type) : Type :=
| Resolved (a : A)
| Failed (e : value)
| Never.

Arguments Resolved {A} a.
Arguments Failed {A} e.
Arguments Never {A}.

Module Bluebird.

(** [Promise.resolve(v)]: a promise is adopted, any other value fulfils. *)
Definition resolve (v : value) : settled value :=
  match v with
  | VPromise Fulfilled x => Resolved x
  | VPromise Rejected e => Failed e
  | VPromise Pending _ => Never
  | _ => Resolved v
  end.

Fixpoint first_failure {A} (l : list (settled A)) : option value :=
  match l with
  | [] => None
  | Failed e :: _ => Some e
  | _ :: r => first_failure r
  end.

Fixpoint results {A} (l : list (settled A)) : option (list A) :=
  match l with
  | [] => Some []
  | Resolved a :: r => option_map (cons a) (results r)
  | _ :: _ => None
  end.

(** The promise of a collection of promises: rejected as soon as one of
    them is (the first one in iteration order, the promises of the model
    being settled already), fulfilled when all of them are. *)
Definition all {A} (l : list (settled A)) : settled (list A) :=
  match first_failure l with
  | Some e => Failed e
  | None =>
      match results l with
      | Some rs => Resolved rs
      | None => Never
      end
  end.

(** [Promise.props(object)] on the promises of the properties. *)
Definition props (l : list (string * settled value)) : settled value :=
  match all (map snd l) with
  | Resolved rs => Resolved (VObj (combine (map fst l) rs))
  | Failed e => Failed e
  | Never => Never
  end.

(** [Promise.map(array, mapper)]: an element that is a promise is awaited
    and the mapper gets its result. *)
Definition map (mapped : list (settled value)) : settled value :=
  match all mapped with
  | Resolved rs => Resolved (VArr rs)
  | Failed e => Failed e
  | Never => Never
  end.

End Bluebird.

(** ** The WHATWG URL class

    The part of the URL Standard the client reaches: [http] and [https]
    URLs written [scheme://host:port/path], with a host of letters, digits
    and dots whose last label starts with a letter, and path segments of
    characters that the parser neither escapes nor interprets.  The functions
    return [None] where the constructor throws and for every text outside
    this part. *)

Module URL.

Record t : Type := mk {
  protocol : string;   (* with its colon: [https:] *)
  hostname : string;
  port : string;       (* empty for the default port of the scheme *)
  pathname : string
}.

Definition is_digit (c : ascii) : bool :=
  let n := nat_of_ascii c in (48 <=? n)%nat && (n <=? 57)%nat.

Definition is_lower (c : ascii) : bool :=
  let n := nat_of_ascii c in (97 <=? n)%nat && (n <=? 122)%nat.

Definition is_upper (c : ascii) : bool :=
  let n := nat_of_ascii c in (65 <=? n)%nat && (n <=? 90)%nat.

Fixpoint all_chars (p : ascii -> bool) (s : string) : bool :=
  match s with
  | EmptyString => true
  | String c r => p c && all_chars p r
  end.

Fixpoint mem_char (c : ascii) (s : string) : bool :=
  match s with
  | EmptyString => false
  | String d r => Ascii.eqb c d || mem_char c r
  end.

Definition host_char (c : ascii) : bool :=
  is_lower c || is_digit c || Ascii.eqb c "."%char.

Definition segment_char (c : ascii) : bool :=
  is_lower c || is_upper c || is_digit c || mem_char c "-._~!$&'()*+,;=@".

Definition default_port (scheme : string) : N :=
  if String.eqb scheme "https" then 443%N else 80%N.

Fixpoint digits_value (s : string) (acc : N) : N :=
  match s with
  | EmptyString => acc
  | String c r => digits_value r (acc * 10 + N.of_nat (nat_of_ascii c - 48))%N
  end.

(** The port of a URL of [scheme]: [Some ""] for no port or the default
    one, [None] for a text that is no port. *)
Definition parse_port (scheme p : string) : option string :=
  if all_chars is_digit p then
    match p with
    | EmptyString => Some ""
    | _ =>
        let n := digits_value p 0%N in
        if (65535 <? n)%N then None
        else if (n =? default_port scheme)%N then Some ""
        else Some (NilZero.string_of_uint (N.to_uint n))
    end
  else None.

Definition parse_host (h : string) : option string :=
  let h := toLowerCase h in
  match last (split_on "."%char h) "" with
  | String c _ => if all_chars host_char h && is_lower c then Some h else None
  | EmptyString => None
  end.

(** The path state of the parser: [..] removes the last segment, [.] is
    dropped, and either of them as the last segment leaves an empty one. *)
Fixpoint path_state (segments : list string) (path : list string) : list string :=
  match segments with
  | [] => path
  | seg :: rest =>
      let at_end := match rest with [] => true | _ => false end in
      if String.eqb seg ".." then
        path_state rest (if at_end then removelast path ++ [""] else removelast path)
      else if String.eqb seg "." then
        path_state rest (if at_end then path ++ [""] else path)
      else path_state rest (path ++ [seg])
  end.

Definition serialize_path (path : list string) : string :=
  String.concat "" (List.map (fun seg => "/" ++ seg)%string path).

Definition segments_ok (segments : list string) : bool :=
  forallb (all_chars segment_char) segments.

(** [new URL(input)]. *)
Definition parse_absolute (input : string) : option t :=
  match split_on ":"%char input with
  | scheme0 :: _ :: _ =>
      let scheme := toLowerCase scheme0 in
      let rest := drop (String.length scheme0 + 1) input in
      if (String.eqb scheme "http" || String.eqb scheme "https") && starts_with "//" rest then
        match split_on "/"%char (drop 2 rest) with
        | authority :: segments =>
            let host_port :=
              match split_on ":"%char authority with
              | [h] => Some (h, "")
              | [h; p] => Some (h, p)
              | _ => None
              end in
            match host_port with
            | Some (h, p) =>
                match parse_host h, parse_port scheme p with
                | Some h', Some p' =>
                    if segments_ok segments then
                      let path := match segments with
                                  | [] => [""]
                                  | _ => path_state segments []
                                  end in
                      Some (mk (scheme ++ ":") h' p' (serialize_path path))
                    else None
                | _, _ => None
                end
            | None => None
            end
        | [] => None
        end
      else None
  | _ => None
  end.

(** [input] resolved against a parsed [base]. *)
Definition parse_relative (input : string) (base : t) : option t :=
  let with_path path := Some (mk (protocol base) (hostname base) (port base) (serialize_path path)) in
  if String.eqb input "" then Some base
  else if starts_with "//" input then None
  else if starts_with "/" input then
    let segments := split_on "/"%char (drop 1 input) in
    if segments_ok segments then with_path (path_state segments []) else None
  else
    let segments := split_on "/"%char input in
    let base_path := split_on "/"%char (drop 1 (pathname base)) in
    if segments_ok segments then with_path (path_state segments (removelast base_path)) else None.

(** [new URL(input, base)], [base] given as its text. *)
Definition new (input : string) (base : option string) : option t :=
  match base with
  | None => parse_absolute input
  | Some b =>
      match parse_absolute b with
      | None => None
      | Some bu =>
          match parse_absolute input with
          | Some u => Some u
          | None => parse_relative input bu
          end
      end
  end.

(** [url.toString()]. *)
Definition href (u : t) : string :=
  (protocol u ++ "//" ++ hostname u
     ++ (if String.eqb (port u) "" then "" else ":" ++ port u) ++ pathname u)%string.

End URL.

(** ** The world around the client *)

(** A call of a function object returns or throws. *)
Inductive completion : Type :=
| Normal (v : value)
| Abrupt (e : value).

(** The collaborators: the HTTP transport [axios.request], the functions
    behind the function objects (a call gives back its arguments as the
    callee left them, since it may change them in place, and its completion)
    and the boundary a [FormData] declares. *)
Record World : Type := mkWorld {
  state : Type;
  axios_request : value -> state -> settled value * state;
  invoke : nat -> list value -> state -> (list value * completion) * state;
  form_boundary : string
}.

(** What a run shows to the outside. *)
Inductive event : Type :=
| EHttp (config : value)
| ECall (callee : value) (args : list value).

(** How a call, or the promise it returns, ends: with a result, with an
    exception or rejection, never, or beyond what the model determines (a
    text or URL the model does not carry, a loop longer than the fuel). *)
Inductive outcome (A : Type) : Type :=
| Done (a : A)
| Fail (e : value)
| Pend
| Beyond.

Arguments Done {A} a.
Arguments Fail {A} e.
Arguments Pend {A}.
Arguments Beyond {A}.

Definition of_settled {A} (r : settled A) : outcome A :=
  match r with
  | Resolved a => Done a
  | Failed e => Fail e
  | Never => Pend
  end.

Section Effects.
Variable W : World.

(** A computation in the world: the outcome, the state it leaves and the
    events it caused, in order. *)
Definition Eff (A : Type) : Type := state W -> outcome A * state W * list event.

Definition ret {A} (a : A) : Eff A := fun s => (Done a, s, []).

Definition stop {A} (r : outcome A) : Eff A := fun s => (r, s, []).

Definition bind {A B} (m : Eff A) (k : A -> Eff B) : Eff B :=
  fun s =>
    match m s with
    | (Done a, s1, t1) =>
        match k a s1 with
        | (r, s2, t2) => (r, s2, t1 ++ t2)
        end
    | (Fail e, s1, t1) => (Fail e, s1, t1)
    | (Pend, s1, t1) => (Pend, s1, t1)
    | (Beyond, s1, t1) => (Beyond, s1, t1)
    end.

(** [axios.request(config)]. *)
Definition request (config : value) : Eff value :=
  fun s =>
    match axios_request W config s with
    | (r, s1) => (of_settled r, s1, [EHttp config])
    end.

(** [callee(...args)]: the arguments after the call and the value
    returned.  Calling what is no function throws. *)
Definition call (callee : value) (args : list value) : Eff (list value * value) :=
  match callee with
  | VFun id _ =>
      fun s =>
        match invoke W id args s with
        | ((args1, Normal v), s1) => (Done (args1, v), s1, [ECall callee args])
        | ((_, Abrupt e), s1) => (Fail e, s1, [ECall callee args])
        end
  | _ => stop (Fail TypeError)
  end.
End Effects.

Arguments ret {W A} a.
Arguments stop {W A} r.
Arguments bind {W A B} m k.

Notation "x <- m ;; k" := (bind m (fun x => k))
  (at level 61, m at next level, right associativity).

(** The HTTP requests among the events. *)
Fixpoint http_requests (t : list event) : list value :=
  match t with
  | [] => []
  | EHttp config :: r => config :: http_requests r
  | ECall _ _ :: r => http_requests r
  end.

(** ** lib/ApiClient.js *)

Module ApiClient.
Import Lodash.

(** The fields the constructor sets. *)
Record t : Type := mk {
  _hostname : value;
  _port : value;
  _protocol : value;
  _basePath : value;
  _authCallback : value;
  _credentials : value
}.

(** [new ApiClient(params)]; [None] where [new URL(baseUrl)] gives none. *)
Definition constructor (params : value) : option t :=
  let baseUrl := get params ["baseUrl"] in
  let authCallback :=
    if has params "authCallback" then get params ["authCallback"] else VUndefined in
  let credentials :=
    if has params "token" then
      let token := get params ["token"] in
      VObj [("token", token)]
    else if has params "username" && has params "password" then
      let username := get params ["username"] in
      let password := get params ["password"] in
      VObj [("username", username); ("password", password)]
    else if has params "authHeaders" then
      let authHeaders := get params ["authHeaders"] in
      VObj [("authHeaders", authHeaders)]
    else get_or params ["credentials"] (VObj []) in
  if negb (isNil baseUrl) then
    match toString baseUrl with
    | Some text =>
        match URL.new text None with
        | Some baseUrl =>
            Some (mk (VStr (URL.hostname baseUrl)) (VStr (URL.port baseUrl))
                    (VStr (URL.protocol baseUrl)) (VStr (URL.pathname baseUrl))
                    authCallback credentials)
        | None => None
        end
    | None => None
    end
  else
    Some (mk (get params ["hostname"]) (get_or params ["port"] (VNum 443))
            (get_or params ["protocol"] (VStr "https:")) (get params ["basePath"])
            authCallback credentials).

(** [_buildUrl(...urlSlugs)]; [None] where a [URL] constructor or a
    template text gives none. *)
Definition _buildUrl (this : t) (arguments : list value) : option string :=
  match toString (_basePath this), toString (_protocol this),
        toString (_hostname this), toString (_port this) with
  | Some basePath, Some protocol, Some hostname, Some port =>
      match URL.new basePath (Some (protocol ++ "//" ++ hostname ++ ":" ++ port)%string) with
      | Some baseUrl =>
          let args := flattenDeep arguments in
          match join args "/" with
          | Some joined =>
              let relativePath := ("./" ++ joined)%string in
              match URL.new relativePath (Some (URL.href baseUrl)) with
              | Some resolvedUrl => Some (URL.href resolvedUrl)
              | None => None
              end
          | None => None
          end
      | None => None
      end
  | _, _, _, _ => None
  end.

(** [static _deepResolve(object)]. *)
Fixpoint _deepResolve (object : value) : settled value :=
  match object with
  | VObj props =>
      Bluebird.props
        (List.map (fun kv => match kv with (key, v) => (key, _deepResolve v) end) props)
  | VArr xs =>
      Bluebird.map
        (List.map
           (fun item =>
              match item with
              | VPromise Fulfilled v => _deepResolve v
              | VPromise Rejected e => Failed e
              | VPromise Pending _ => Never
              | _ => _deepResolve item
              end)
           xs)
  | _ => Bluebird.resolve object
  end.

(** [static _serializeObjectToFormData(object, formData, path)].  The
    accumulator is the list of the [append] calls of [formData]; an absent
    [formData] is a fresh one and an absent [path] the empty text.  The cases
    are the tests of the source in their order: [_.isUndefined],
    [_.isBoolean], [_.isArray], [_.isDate], [_.isPlainObject], and the
    remaining values. *)
Fixpoint _serializeObjectToFormData (object : value) (formData : list (string * value))
  (path : string) {struct object} : list (string * value) :=
  match object with
  | VUndefined => formData
  | VBool b => formData ++ [(path, VStr (if b then "true" else "false"))]
  | VArr xs =>
      match xs with
      | [] =>
          let key := (path ++ "[]")%string in
          formData ++ [(key, VStr "")]
      | _ =>
          fold_left
            (fun formData v =>
               let key := (path ++ "[]")%string in
               _serializeObjectToFormData v formData key)
            xs formData
      end
  | VDate iso => formData ++ [(path, VStr iso)]
  | VObj props =>
      fold_left
        (fun formData kv =>
           match kv with
           | (property, v) =>
               let key := if isEmpty (VStr path) then property
                          else (path ++ "['" ++ property ++ "']")%string in
               _serializeObjectToFormData v formData key
           end)
        props formData
  | _ => formData ++ [(path, object)]
  end.

(** [method.toLowerCase()]. *)
Definition call_toLowerCase (v : value) : outcome string :=
  match v with
  | VStr s => Done (toLowerCase s)
  | VObj _ | VFun _ _ => if has v "toLowerCase" then Beyond else Fail TypeError
  | _ => Fail TypeError
  end.

(** [array[i]]. *)
Definition at_index (array : value) (i : nat) : value :=
  match array with
  | VArr xs => nth i xs VUndefined
  | _ => VUndefined
  end.

Definition elements (array : value) : list value :=
  match array with
  | VArr xs => xs
  | _ => []
  end.

(** [_parseArgs(...arguments)]: the promise of the request config. *)
Definition _parseArgs (this : t) (arguments : list value) : outcome value :=
  let numArgs := List.length arguments in
  let defaultMethod := last arguments VUndefined in
  let args := slice0 arguments (numArgs - 1) in
  let numArgs := List.length args in
  let configObjectArgs := takeRightWhile (fun arg => isPlainObject arg || isNil arg) args in
  let numConfigObjectArgs := List.length configObjectArgs in
  let resolveUrlArgs := slice0 args (numArgs - numConfigObjectArgs) in
  match _deepResolve (VArr configObjectArgs) with
  | Failed e => Fail e
  | Never => Pend
  | Resolved resolvedConfigObjectArgs =>
      match _buildUrl this resolveUrlArgs with
      | None => Beyond
      | Some url =>
          let method := defaultMethod in
          let params := VNull in
          let data := VNull in
          let config := VObj [] in
          let chosen : outcome (value * value * value) :=
            if (numConfigObjectArgs =? 1)%nat then
              let config :=
                if negb (isNil (at_index resolvedConfigObjectArgs 0))
                then at_index resolvedConfigObjectArgs 0 else config in
              Done (config, params, data)
            else if (numConfigObjectArgs =? 2)%nat then
              let config :=
                if negb (isNil (at_index resolvedConfigObjectArgs 1))
                then at_index resolvedConfigObjectArgs 1 else config in
              match call_toLowerCase (get_or config ["method"] defaultMethod) with
              | Done method =>
                  if negb (isNil (at_index resolvedConfigObjectArgs 0)) then
                    if String.eqb method "put" || String.eqb method "post"
                       || String.eqb method "patch"
                    then Done (config, params, at_index resolvedConfigObjectArgs 0)
                    else Done (config, at_index resolvedConfigObjectArgs 0, data)
                  else Done (config, params, data)
              | Fail e => Fail e
              | Pend => Pend
              | Beyond => Beyond
              end
            else
              let params :=
                if negb (isNil (at_index resolvedConfigObjectArgs 0))
                then at_index resolvedConfigObjectArgs 0 else params in
              let data :=
                if negb (isNil (at_index resolvedConfigObjectArgs 1))
                then at_index resolvedConfigObjectArgs 1 else data in
              let config := assign (VObj []) (sliceFrom (elements resolvedConfigObjectArgs) 2) in
              Done (config, params, data) in
          match chosen with
          | Done (config, params, data) =>
              let config := if isNil config then VObj [] else config in
              Done (defaults config
                      [("url", VStr url); ("method", method); ("data", data);
                       ("params", params)])
          | Fail e => Fail e
          | Pend => Pend
          | Beyond => Beyond
          end
      end
  end.

(** [formData.getHeaders()]. *)
Definition getHeaders (W : World) : list (string * value) :=
  [("content-type", VStr ("multipart/form-data; boundary=" ++ form_boundary W)%string)].

(** The form-data step of [_request]: the statements between the parsing
    of the arguments and the authentication. *)
Definition formDataStep (W : World) (config : value) : value :=
  let contentTypeHeaderKey :=
    find (fun key => String.eqb (toLower key) "content-type") (keys (get config ["headers"])) in
  let contentTypeHeader := get config ["headers"; toKey contentTypeHeaderKey] in
  let data := get config ["data"] in
  if strict_eq_str contentTypeHeader "multipart/form-data" && negb (isNil data) then
    let config :=
      if negb (instanceofFormData data) then
        let data := VFormData (_serializeObjectToFormData data [] "") in
        set config ["data"] data
      else config in
    let formDataHeaders := getHeaders W in
    set config ["headers"] (merge (get_or config ["headers"] (VObj [])) formDataHeaders)
  else config.

Section InWorld.
Variable W : World.

(** [_authenticate(config)]: the config as the call leaves it. *)
Definition _authenticate (this : t) (config : value) : Eff W value :=
  let config := if isNil config then VObj [] else config in
  if negb (isEmpty (_authCallback this)) then
    r <- call W (_authCallback this) [config] ;;
    ret (nth 0 (fst r) config)
  else if has (_credentials this) "token" then
    let token := get (_credentials this) ["token"] in
    match toString token with
    | Some text => ret (set config ["headers"; "Authorization"] (VStr ("Bearer " ++ text)%string))
    | None => stop Beyond
    end
  else if has (_credentials this) "username" && has (_credentials this) "password" then
    let username := get (_credentials this) ["username"] in
    let password := get (_credentials this) ["password"] in
    ret (set config ["auth"] (VObj [("username", username); ("password", password)]))
  else if has (_credentials this) "authHeaders" then
    let authHeaders := get (_credentials this) ["authHeaders"] in
    ret (fold_left
           (fun config kv =>
              match kv with
              | (header, v) => set config ["headers"; header] v
              end)
           (own authHeaders) config)
  else ret config.

(** The inner function [paginationRequest(config)] of [_request]; the
    array of response bodies is passed along. *)
Fixpoint paginationRequest (fuel : nat) (paginationCallback : value)
  (responseDataArray : list value) (config : value) : Eff W (list value) :=
  match fuel with
  | O => stop Beyond
  | S fuel =>
      paginationResponse <- request W config ;;
      let paginationResponseData := get paginationResponse ["data"] in
      r <- call W paginationCallback [paginationResponseData; config] ;;
      let responseDataArray :=
        responseDataArray ++ [nth 0 (fst r) paginationResponseData] in
      let config := nth 1 (fst r) config in
      let nextConfig := snd r in
      if negb (isNil nextConfig) then
        paginationRequest fuel paginationCallback responseDataArray config
      else ret responseDataArray
  end.

(** [_request(...arguments)], the method being the last argument.
    [fuel] bounds the number of pages after the first. *)
Definition _request (fuel : nat) (this : t) (arguments : list value) : Eff W value :=
  config <- stop (_parseArgs this arguments) ;;
  let config := formDataStep W config in
  config <- _authenticate this config ;;
  response <- request W config ;;
  let responseData := get response ["data"] in
  let paginationCallback := get config ["paginationCallback"] in
  if negb (isNil paginationCallback) then
    r <- call W paginationCallback [responseData; config] ;;
    let responseDataArray := [nth 0 (fst r) responseData] in
    let nextConfig := snd r in
    responseDataArray <-
      (if isNil nextConfig then ret responseDataArray
       else paginationRequest fuel paginationCallback responseDataArray nextConfig) ;;
    ret (VArr responseDataArray)
  else ret responseData.

Definition _get (fuel : nat) (this : t) (arguments : list value) : Eff W value :=
  _request fuel this (arguments ++ [VStr "get"]).

Definition _head (fuel : nat) (this : t) (arguments : list value) : Eff W value :=
  _request fuel this (arguments ++ [VStr "head"]).

Definition _delete (fuel : nat) (this : t) (arguments : list value) : Eff W value :=
  _request fuel this (arguments ++ [VStr "delete"]).

Definition _options (fuel : nat) (this : t) (arguments : list value) : Eff W value :=
  _request fuel this (arguments ++ [VStr "options"]).

Definition _put (fuel : nat) (this : t) (arguments : list value) : Eff W value :=
  _request fuel this (arguments ++ [VStr "put"]).

Definition _post (fuel : nat) (this : t) (arguments : list value) : Eff W value :=
  _request fuel this (arguments ++ [VStr "post"]).

Definition _patch (fuel : nat) (this : t) (arguments : list value) : Eff W value :=
  _request fuel this (arguments ++ [VStr "patch"]).
End InWorld.

End ApiClient.

(** ** lib/EntityCrudApi.js *)

Module EntityCrudApi.
Import Lodash.

Record t : Type := mk {
  _apiClient : ApiClient.t;
  _entityUrlBasePathname : value
}.

Definition constructor (apiClient : ApiClient.t) (entityUrlBasePathname : value) : t :=
  mk apiClient entityUrlBasePathname.

Definition _resolveUrlSlug (this : t) (id : value) : value :=
  let entityUrlBasePathname := _entityUrlBasePathname this in
  if isNil id then VArr [entityUrlBasePathname; id]
  else VArr [entityUrlBasePathname].

Section InWorld.
Variable W : World.
Variable fuel : nat.

Definition list (this : t) (params config : value) : Eff W value :=
  let apiClient := _apiClient this in
  ApiClient._get W fuel apiClient [_resolveUrlSlug this VUndefined; params; config].

Definition create (this : t) (data config : value) : Eff W value :=
  let apiClient := _apiClient this in
  ApiClient._post W fuel apiClient [_resolveUrlSlug this VUndefined; data; config].

Definition read (this : t) (id params config : value) : Eff W value :=
  let apiClient := _apiClient this in
  ApiClient._get W fuel apiClient [_resolveUrlSlug this id; params; config].

Definition update (this : t) (id data config : value) : Eff W value :=
  let apiClient := _apiClient this in
  ApiClient._put W fuel apiClient [_resolveUrlSlug this id; data; config].

Definition delete (this : t) (id params config : value) : Eff W value :=
  let apiClient := _apiClient this in
  ApiClient._delete W fuel apiClient [_resolveUrlSlug this id; params; config].
End InWorld.

End EntityCrudApi.

(** * Vocabulary of the properties *)

Import Lodash.

(** ** Worlds and clients used as concrete inputs *)

(** A transport that answers every request with the same body; functions
    that leave their arguments alone and return [undefined]. *)
Definition quiet_world : World :=
  mkWorld unit
    (fun _ s => (Resolved (VObj [("data", VStr "body")]), s))
    (fun _ args s => ((args, Normal VUndefined), s))
    "boundary".

(** The client of base URL [https://host:443/api/], built from its parts. *)
Definition host_client : ApiClient.t :=
  ApiClient.mk (VStr "host") (VNum 443) (VStr "https:") (VStr "/api/") VUndefined (VObj []).

(** The request descriptors of two further pages. *)
Definition page2 : value := VObj [("url", VStr "https://host/api/page2")].
Definition page3 : value := VObj [("url", VStr "https://host/api/page3")].

(** A transport whose n-th response body is the number n, and a
    continuation that asks for [page2] after body 0, for [page3] after body 1
    and stops afterwards, without touching its arguments. *)
Definition paged_world : World :=
  mkWorld nat
    (fun _ n => (Resolved (VObj [("data", VNum (Z.of_nat n))]), S n))
    (fun _ args n =>
       ((args,
         Normal match nth 0 args VUndefined with
                | VNum 0 => page2
                | VNum 1 => page3
                | _ => VUndefined
                end), n))
    "boundary".

(** A world whose function 0 marks the config it is given. *)
Definition marking_world : World :=
  mkWorld unit
    (fun _ s => (Resolved (VObj [("data", VStr "body")]), s))
    (fun _ args s =>
       (([set (nth 0 args VUndefined) ["headers"; "X-Signed"] (VStr "yes")], Normal VUndefined), s))
    "boundary".

(** ** Vocabulary of the argument parser *)

(** An argument that counts as a config object: a plain object or an absent
    value. *)
Definition config_object_arg (arg : value) : bool := isPlainObject arg || isNil arg.

(** The URL slug arguments end in an argument that is no config object:
    their own trailing run of config objects is empty, so that the run of the
    call starts after them. *)
Definition ends_in_slug (slugs : list value) : Prop :=
  takeRightWhile config_object_arg slugs = [].

(** The value the parser computed for a key of the request config. *)
Definition inferred (url method data params : value) (key : string) : value :=
  if String.eqb key "url" then url
  else if String.eqb key "method" then method
  else if String.eqb key "data" then data
  else if String.eqb key "params" then params
  else VUndefined.

(** The methods whose first config object is the request body. *)
Definition body_method (method : string) : bool :=
  existsb (String.eqb method) ["put"; "post"; "patch"].

(** The value [_.defaults] leaves under a key: the one of the object when it
    is defined, else the first defined one of the source. *)
Fixpoint first_defined (key : string) (source : list (string * value)) : value :=
  match source with
  | [] => VUndefined
  | (k, v) :: r =>
      if String.eqb k key then
        match v with
        | VUndefined => first_defined key r
        | _ => v
        end
      else first_defined key r
  end.

(** ** Vocabulary of the form-data step *)

(** The content-type header of a config: the value of the first header whose
    name, lower-cased, is [content-type]. *)
Definition content_type_header (config : value) : value :=
  match List.find (fun kv => String.eqb (toLowerCase (fst kv)) "content-type")
          (own (get config ["headers"])) with
  | Some (_, v) => v
  | None => VUndefined
  end.

(** The body is present and not a [FormData] yet. *)
Definition unserialized_body (config : value) : bool :=
  negb (isNil (get config ["data"])) && negb (instanceofFormData (get config ["data"])).

(** The trigger with the header value compared as it is written. *)
Definition exact_trigger (config : value) : bool :=
  strict_eq_str (content_type_header config) "multipart/form-data" && unserialized_body config.

(** The trigger with the header value compared without regard to case. *)
Definition caseless_trigger (config : value) : bool :=
  match content_type_header config with
  | VStr s => String.eqb (toLowerCase s) "multipart/form-data"
  | _ => false
  end && unserialized_body config.

(** The step serialized the body: it was no [FormData] and it is one now. *)
Definition serialization_triggered (W : World) (config : value) : bool :=
  negb (instanceofFormData (get config ["data"]))
  && instanceofFormData (get (ApiClient.formDataStep W config) ["data"]).

(** ** Vocabulary of the object resolver *)

(** [nested_in p v]: the value [p] lies in [v], reached through properties
    of plain objects and elements of arrays. *)
Inductive nested_in (p : value) : value -> Prop :=
| nested_here : nested_in p p
| nested_prop props key v : In (key, v) props -> nested_in p v -> nested_in p (VObj props)
| nested_item xs v : In v xs -> nested_in p v -> nested_in p (VArr xs).

(** [contains p v]: [p] lies in [v], reached through properties, elements
    and the results of fulfilled promises. *)
Inductive contains (p : value) : value -> Prop :=
| contains_here : contains p p
| contains_prop props key v : In (key, v) props -> contains p v -> contains p (VObj props)
| contains_item xs v : In v xs -> contains p v -> contains p (VArr xs)
| contains_result v : contains p v -> contains p (VPromise Fulfilled v).

(** What [_deepResolve] hands to [Promise.map] for an element of an array. *)
Definition mapped_item (item : value) : settled value :=
  match item with
  | VPromise Fulfilled v => ApiClient._deepResolve v
  | VPromise Rejected e => Failed e
  | VPromise Pending _ => Never
  | _ => ApiClient._deepResolve item
  end.

(** ** Vocabulary of the form-data serializer *)

(** A value the serializer appends as it is: neither [undefined], a boolean,
    an array, a date nor a plain object. *)
Definition appended_as_is (v : value) : bool :=
  match v with
  | VUndefined | VBool _ | VArr _ | VDate _ | VObj _ => false
  | _ => true
  end.

(** The key under which the serializer descends into a property. *)
Definition property_key (path property : string) : string :=
  if isEmpty (VStr path) then property else (path ++ "['" ++ property ++ "']")%string.

(** ** More vocabulary of the object resolver *)

(** A promise lies in the value, through plain objects and arrays. *)
Fixpoint holds_promise (v : value) : bool :=
  match v with
  | VPromise _ _ => true
  | VArr xs => existsb holds_promise xs
  | VObj props => existsb (fun kv => match kv with (_, x) => holds_promise x end) props
  | _ => false
  end.

(** A rejected promise lies in the value, through plain objects, arrays and
    the results of fulfilled promises. *)
Fixpoint holds_rejected (v : value) : bool :=
  match v with
  | VPromise Rejected _ => true
  | VPromise Fulfilled x => holds_rejected x
  | VArr xs => existsb holds_rejected xs
  | VObj props => existsb (fun kv => match kv with (_, x) => holds_rejected x end) props
  | _ => false
  end.

(** ** More vocabulary of the argument parser *)

(** The value assigned last to a key when the own properties of the sources
    are assigned in order. *)
Definition last_assigned (key : string) (sources : list value) : option value :=
  lookup key (rev (flat_map own sources)).

(** ** Vocabulary of the authentication *)

(** A value that holds the properties set on it: a plain object or a
    function object. *)
Definition holder (v : value) : bool :=
  match v with
  | VObj _ | VFun _ _ => true
  | _ => false
  end.

(** The headers of a config are absent or hold properties. *)
Definition headers_ok (config : value) : bool :=
  isNil (get config ["headers"]) || holder (get config ["headers"]).

(** ** Vocabulary of the request executor *)

(** The handler [_request] runs on the first response: the statements of the
    callback given to [axios.request(config).then]. *)
Definition respond (W : World) (fuel : nat) (config response : value) : Eff W value :=
  let responseData := get response ["data"] in
  let paginationCallback := get config ["paginationCallback"] in
  if negb (isNil paginationCallback) then
    r <- call W paginationCallback [responseData; config] ;;
    let responseDataArray := [nth 0 (fst r) responseData] in
    let nextConfig := snd r in
    responseDataArray <-
      (if isNil nextConfig then ret responseDataArray
       else ApiClient.paginationRequest W fuel paginationCallback responseDataArray nextConfig) ;;
    ret (VArr responseDataArray)
  else ret responseData.

(** A key that neither the form-data step nor the authentication writes. *)
Definition kept_key (key : string) : Prop :=
  key <> "data" /\ key <> "headers" /\ key <> "auth".

(** The functions of the world leave their arguments as they got them. *)
Definition leaves_arguments (W : World) : Prop :=
  forall id args st, fst (fst (invoke W id args st)) = args.

(** * Properties *)

(** ** The form-data serializer *)

(** C7: serializing [{a: [1, 2], b: {c: true}}] from the empty key path into
    a fresh accumulator appends exactly [a[] = 1], [a[] = 2] and
    [b['c'] = "true"], in this order. *)
Theorem serialize_nested_example :
  ApiClient._serializeObjectToFormData
    (VObj [("a", VArr [VNum 1; VNum 2]); ("b", VObj [("c", VBool true)])]) [] ""
  = [("a[]", VNum 1); ("a[]", VNum 2); ("b['c']", VStr "true")].
Proof. reflexivity. Qed.

(** ** The URL builder *)

(** C8, as the spec states it, fails: for the client of base URL
    [https://host:443/api/] and the segments [widgets], [42] the builder does
    not return [https://host:443/api/widgets/42]. *)
Lemma buildUrl_default_port_not_printed :
  ApiClient._buildUrl host_client [VStr "widgets"; VStr "42"]
  <> Some "https://host:443/api/widgets/42".
Proof. vm_compute. discriminate. Qed.

(** C8, amended: the builder returns [https://host/api/widgets/42], the URL
    serializer leaving out the default port of [https]; this holds for the
    client built from its parts and for the one built from the base URL text,
    for the segments given one by one and given as one array; a port that is
    not the default one is printed. *)
Theorem buildUrl_host_example :
  ApiClient._buildUrl host_client [VStr "widgets"; VStr "42"]
    = Some "https://host/api/widgets/42"
  /\ ApiClient._buildUrl host_client [VArr [VStr "widgets"; VStr "42"]]
    = Some "https://host/api/widgets/42"
  /\ option_map (fun client => ApiClient._buildUrl client [VArr [VStr "widgets"; VStr "42"]])
       (ApiClient.constructor (VObj [("baseUrl", VStr "https://host:443/api/")]))
    = Some (Some "https://host/api/widgets/42")
  /\ option_map (fun client => ApiClient._buildUrl client [VArr [VStr "widgets"; VStr "42"]])
       (ApiClient.constructor
          (VObj [("hostname", VStr "host"); ("port", VNum 443); ("protocol", VStr "https:");
                 ("basePath", VStr "/api/")]))
    = Some (Some "https://host/api/widgets/42")
  /\ option_map (fun client => ApiClient._buildUrl client [VArr [VStr "widgets"; VStr "42"]])
       (ApiClient.constructor (VObj [("baseUrl", VStr "https://host:8443/api/")]))
    = Some (Some "https://host:8443/api/widgets/42").
Proof. vm_compute. repeat split; reflexivity. Qed.

(** ** The CRUD facade *)

(** The slug of a supplied id is the base path alone. *)
Lemma resolveUrlSlug_supplied_id (this : EntityCrudApi.t) (id : value) :
  isNil id = false ->
  EntityCrudApi._resolveUrlSlug this id = VArr [EntityCrudApi._entityUrlBasePathname this].
Proof. intros H. unfold EntityCrudApi._resolveUrlSlug. rewrite H. reflexivity. Qed.

(** C2 fails on the code: [read(7)] on the resource [widgets] issues one GET
    request, at [https://host/api/widgets]; the id is no segment of its
    path. *)
Theorem read_drops_supplied_id :
  let api := EntityCrudApi.constructor host_client (VStr "widgets") in
  let run := EntityCrudApi.read quiet_world 0 api (VNum 7) VUndefined VUndefined tt in
  http_requests (snd run)
  = [VObj [("url", VStr "https://host/api/widgets"); ("method", VStr "get");
           ("data", VNull); ("params", VNull)]].
Proof. vm_compute. reflexivity. Qed.

(** ** Pagination *)

(** C3 fails on the code: with a continuation that returns [page2] for the
    first response and [page3] for the second, the third request is issued
    with [page2] again, the descriptor of the second request, and not with
    the descriptor [page3] the continuation returned. *)
Theorem pagination_reuses_previous_descriptor :
  let callback := VFun 0 [] in
  let first := VObj [("paginationCallback", callback);
                     ("url", VStr "https://host/api/widgets"); ("method", VStr "get");
                     ("data", VNull); ("params", VNull)] in
  let run := ApiClient._get paged_world 5 host_client
               [VStr "widgets"; VUndefined; VObj [("paginationCallback", callback)]] 0%nat in
  snd run
  = [EHttp first; ECall callback [VNum 0; first];
     EHttp page2; ECall callback [VNum 1; page2];
     EHttp page2; ECall callback [VNum 2; page2]]
  /\ fst (fst run) = Done (VArr [VNum 0; VNum 1; VNum 2])
  /\ snd (fst (invoke paged_world 0 [VNum 1; page2] 2%nat)) = Normal page3
  /\ page2 <> page3.
Proof. vm_compute. repeat split; try reflexivity. discriminate. Qed.

(** ** Authentication *)

(** C1 fails on the code: a client configured with a token and with an
    authentication callback (a function without own enumerable properties,
    as functions are) authenticates with the token and never calls the
    callback.  The callback is called once it has an own enumerable
    property. *)
Theorem authenticate_ignores_function_callback :
  let configured callback :=
    ApiClient.constructor
      (VObj [("hostname", VStr "host"); ("token", VStr "t"); ("authCallback", callback)]) in
  let authenticated callback :=
    option_map (fun client => ApiClient._authenticate marking_world client (VObj []) tt)
      (configured callback) in
  authenticated (VFun 0 [])
  = Some (Done (VObj [("headers", VObj [("Authorization", VStr "Bearer t")])]), tt, [])
  /\ authenticated (VFun 0 [("tag", VNum 1)])
  = Some (Done (VObj [("headers", VObj [("X-Signed", VStr "yes")])]), tt,
          [ECall (VFun 0 [("tag", VNum 1)]) [VObj []]]).
Proof. vm_compute. split; reflexivity. Qed.

(** ** Lists and properties *)

Lemma takeRightWhile_snoc {A} (p : A -> bool) (l : list A) (x : A) :
  takeRightWhile p (l ++ [x]) = if p x then takeRightWhile p l ++ [x] else [].
Proof.
  unfold takeRightWhile. rewrite rev_app_distr. simpl.
  destruct (p x); reflexivity.
Qed.

Lemma takeRightWhile_slugs (slugs : list value) :
  ends_in_slug slugs -> takeRightWhile config_object_arg slugs = [].
Proof. intros H. exact H. Qed.

Lemma takeRightWhile_configs (slugs cfgs : list value) :
  ends_in_slug slugs -> forallb config_object_arg cfgs = true ->
  takeRightWhile config_object_arg (slugs ++ cfgs) = cfgs.
Proof.
  intros Hs. induction cfgs as [|c cfgs IH] using rev_ind; intros Hc.
  - rewrite app_nil_r. now apply takeRightWhile_slugs.
  - rewrite forallb_app in Hc. apply andb_true_iff in Hc. destruct Hc as [Hc Hx].
    simpl in Hx. rewrite andb_true_r in Hx.
    rewrite app_assoc, takeRightWhile_snoc, Hx, IH by assumption. reflexivity.
Qed.

Lemma slice0_front {A} (l r : list A) :
  slice0 (l ++ r) (List.length (l ++ r) - List.length r) = l.
Proof.
  unfold slice0. rewrite length_app.
  replace (List.length l + List.length r - List.length r)%nat with (List.length l + 0)%nat by lia.
  rewrite firstn_app_2. simpl. apply app_nil_r.
Qed.

(** The parts [_parseArgs] cuts its arguments into. *)
Lemma parseArgs_cut (slugs cfgs : list value) (method : value) :
  ends_in_slug slugs -> forallb config_object_arg cfgs = true ->
  last (slugs ++ cfgs ++ [method]) VUndefined = method
  /\ slice0 (slugs ++ cfgs ++ [method]) (List.length (slugs ++ cfgs ++ [method]) - 1)
     = slugs ++ cfgs
  /\ takeRightWhile (fun arg => isPlainObject arg || isNil arg) (slugs ++ cfgs) = cfgs
  /\ slice0 (slugs ++ cfgs) (List.length (slugs ++ cfgs) - List.length cfgs) = slugs.
Proof.
  intros Hs Hc. repeat split.
  - rewrite app_assoc. apply last_last.
  - rewrite app_assoc. apply (slice0_front (slugs ++ cfgs) [method]).
  - now apply takeRightWhile_configs.
  - apply slice0_front.
Qed.

Lemma lookup_assoc_set_same (key : string) (v : value) (props : list (string * value)) :
  lookup key (assoc_set key v props) = Some v.
Proof.
  induction props as [|[k x] r IH]; simpl.
  - now rewrite String.eqb_refl.
  - destruct (String.eqb k key) eqn:E; simpl; rewrite E; auto.
Qed.

Lemma lookup_assoc_set_other (key key' : string) (v : value) (props : list (string * value)) :
  key <> key' -> lookup key' (assoc_set key v props) = lookup key' props.
Proof.
  intros Hne. induction props as [|[k x] r IH]; simpl.
  - destruct (String.eqb key key') eqn:E; [apply String.eqb_eq in E; contradiction | reflexivity].
  - destruct (String.eqb k key) eqn:E; simpl.
    + apply String.eqb_eq in E. subst k.
      destruct (String.eqb key key') eqn:E'; [apply String.eqb_eq in E'; contradiction | reflexivity].
    + destruct (String.eqb k key'); auto.
Qed.

Lemma get_obj (props : list (string * value)) (key : string) :
  get (VObj props) [key] = match lookup key props with Some v => v | None => VUndefined end.
Proof. simpl. unfold prop. simpl. now destruct (lookup key props). Qed.

Lemma set_obj (props : list (string * value)) (key : string) (rest : list string) (v : value) :
  exists x, set (VObj props) (key :: rest) v = VObj (assoc_set key x props).
Proof.
  unfold set. simpl. destruct rest; simpl; eexists; reflexivity.
Qed.

Lemma set_obj_other (props : list (string * value)) (key key' : string) (rest : list string)
  (v : value) :
  key <> key' ->
  exists props', set (VObj props) (key :: rest) v = VObj props'
                 /\ lookup key' props' = lookup key' props.
Proof.
  intros Hne. destruct (set_obj props key rest v) as [x Hx].
  exists (assoc_set key x props). split; [exact Hx|]. now apply lookup_assoc_set_other.
Qed.

(** Names the object that the [set] on [props] in the goal gives, and records
    that [key] keeps its value there. *)
Ltac set_keeps props key p H L :=
  match goal with
  | |- context [set (VObj props) (?k :: ?rest) ?x] =>
      destruct (set_obj_other props k key rest x) as [p [H L]];
      [first [discriminate | apply not_eq_sym; assumption] | rewrite H]
  end.

Lemma defaults_obj (source : list (string * value)) :
  forall props, exists props',
    defaults (VObj props) source = VObj props'
    /\ forall key, get (VObj props') [key]
                   = match get (VObj props) [key] with
                     | VUndefined => first_defined key source
                     | v => v
                     end.
Proof.
  induction source as [|[k v] r IH]; intros props.
  - exists props. split; [reflexivity|]. intros key. simpl. now destruct (prop (VObj props) key).
  - assert (Hstep : forall props0, exists props1,
               (match prop (VObj props0) k with
                | VUndefined => assignValue (VObj props0) k v
                | _ => VObj props0
                end) = VObj props1
               /\ forall key, get (VObj props1) [key]
                              = match get (VObj props0) [key] with
                                | VUndefined => if String.eqb k key then v else VUndefined
                                | w => w
                                end).
    { intros props0.
      destruct (prop (VObj props0) k) eqn:Ek;
        try (exists props0; split; [reflexivity|]; intros key;
             destruct (String.eqb k key) eqn:E;
             [apply String.eqb_eq in E; subst key; simpl; rewrite Ek; reflexivity
             |now destruct (get (VObj props0) [key])]).
      exists (assoc_set k v props0). split; [reflexivity|]. intros key.
      rewrite !get_obj. destruct (String.eqb k key) eqn:E.
      - apply String.eqb_eq in E. subst key. rewrite lookup_assoc_set_same.
        unfold prop in Ek. simpl in Ek. destruct (lookup k props0); [subst; reflexivity|].
        now destruct v.
      - apply String.eqb_neq in E. rewrite lookup_assoc_set_other by assumption.
        now destruct (lookup key props0) as [[]|]. }
    unfold defaults in *. cbn [fold_left fst snd].
    destruct (Hstep props) as [props1 [H1 H1']]. rewrite H1.
    destruct (IH props1) as [props2 [H2 H2']]. exists props2. split; [exact H2|].
    intros key. rewrite H2', H1'.
    destruct (get (VObj props) [key]) eqn:Eg; try reflexivity.
    simpl first_defined. destruct (String.eqb k key); [now destruct v | reflexivity].
Qed.

Lemma first_defined_inferred (url : string) (method data params : value) (key : string) :
  data <> VUndefined -> params <> VUndefined ->
  first_defined key [("url", VStr url); ("method", method); ("data", data); ("params", params)]
  = inferred (VStr url) method data params key.
Proof.
  intros Hd Hp. unfold inferred. cbn [first_defined].
  rewrite !(String.eqb_sym key).
  destruct (String.eqb "url" key) eqn:E1; [reflexivity|].
  destruct (String.eqb "method" key) eqn:E2.
  { destruct method; try reflexivity.
    apply String.eqb_eq in E2. subst key. reflexivity. }
  destruct (String.eqb "data" key) eqn:E3; [destruct data; congruence|].
  destruct (String.eqb "params" key) eqn:E4; [destruct params; congruence|reflexivity].
Qed.

(** ** The object resolver on config objects *)

Lemma deepResolve_configs (cfgs : list value) :
  forallb config_object_arg cfgs = true ->
  ApiClient._deepResolve (VArr cfgs) = Bluebird.map (List.map ApiClient._deepResolve cfgs).
Proof.
  intros H. cbn [ApiClient._deepResolve]. f_equal. apply map_ext_in. intros a Ha.
  rewrite forallb_forall in H. specialize (H a Ha).
  destruct a; try discriminate H; reflexivity.
Qed.

Lemma deepResolve_obj_shape (props : list (string * value)) (r : value) :
  ApiClient._deepResolve (VObj props) = Resolved r -> exists props', r = VObj props'.
Proof.
  cbn [ApiClient._deepResolve]. unfold Bluebird.props.
  destruct (Bluebird.all _); intros H; inversion H. eexists; reflexivity.
Qed.

Lemma deepResolve_config_arg (a r : value) :
  config_object_arg a = true -> ApiClient._deepResolve a = Resolved r ->
  (isNil r = true /\ r = a) \/ exists props, r = VObj props.
Proof.
  intros Ha Hr. destruct a; try discriminate Ha.
  - left. inversion Hr. split; reflexivity.
  - left. inversion Hr. split; reflexivity.
  - right. eapply deepResolve_obj_shape; eassumption.
Qed.

(** ** The argument parser *)

(** One trailing config object: the resolved object, with the keys it leaves
    undefined filled from the computed values. *)
Lemma parseArgs_one_config (this : ApiClient.t) (slugs : list value)
  (o : list (string * value)) (method r : value) (url : string) :
  ends_in_slug slugs ->
  ApiClient._deepResolve (VObj o) = Resolved r ->
  ApiClient._buildUrl this slugs = Some url ->
  exists props,
    ApiClient._parseArgs this (slugs ++ [VObj o; method]) = Done (VObj props)
    /\ forall key,
         get (VObj props) [key]
         = match get r [key] with
           | VUndefined => inferred (VStr url) method VNull VNull key
           | v => v
           end.
Proof.
  intros Hs Hr Hu.
  destruct (parseArgs_cut slugs [VObj o] method Hs eq_refl) as (Hl & Ha & Ht & Hf).
  change (slugs ++ [VObj o; method]) with (slugs ++ [VObj o] ++ [method]).
  unfold ApiClient._parseArgs. cbv zeta.
  rewrite Hl, Ha, Ht, Hf.
  rewrite (deepResolve_configs [VObj o] eq_refl).
  cbn [List.map]. rewrite Hr, Hu.
  destruct (deepResolve_obj_shape o r Hr) as [o' ->].
  cbn [Bluebird.map Bluebird.all Bluebird.first_failure Bluebird.results option_map
       List.length Nat.eqb ApiClient.at_index nth isNil negb].
  destruct (defaults_obj
              [("url", VStr url); ("method", method); ("data", VNull); ("params", VNull)] o')
    as [props [Hd Hg]].
  exists props. split; [now rewrite Hd|].
  intros key. rewrite Hg. rewrite first_defined_inferred by discriminate. reflexivity.
Qed.

(** Two trailing config objects: the second one is the config, the first one
    the body for the methods put, post and patch and the query otherwise. *)
Lemma parseArgs_two_configs (this : ApiClient.t) (slugs : list value)
  (a0 a1 method r0 r1 : value) (m url : string) :
  ends_in_slug slugs ->
  config_object_arg a0 = true -> config_object_arg a1 = true ->
  ApiClient._deepResolve a0 = Resolved r0 ->
  ApiClient._deepResolve a1 = Resolved r1 ->
  ApiClient._buildUrl this slugs = Some url ->
  let config := if isNil r1 then VObj [] else r1 in
  get_or config ["method"] method = VStr m ->
  let data := if isNil r0 then VNull else if body_method (toLowerCase m) then r0 else VNull in
  let params := if isNil r0 then VNull else if body_method (toLowerCase m) then VNull else r0 in
  exists props,
    ApiClient._parseArgs this (slugs ++ [a0; a1; method]) = Done (VObj props)
    /\ forall key,
         get (VObj props) [key]
         = match get config [key] with
           | VUndefined => inferred (VStr url) method data params key
           | v => v
           end.
Proof.
  intros Hs H0 H1 Hr0 Hr1 Hu config Hm data params.
  assert (Hc : forallb config_object_arg [a0; a1] = true)
    by (cbn [forallb]; now rewrite H0, H1).
  destruct (parseArgs_cut slugs [a0; a1] method Hs Hc) as (Hl & Ha & Ht & Hf).
  change (slugs ++ [a0; a1; method]) with (slugs ++ [a0; a1] ++ [method]).
  unfold ApiClient._parseArgs. cbv zeta.
  rewrite Hl, Ha, Ht, Hf.
  rewrite (deepResolve_configs [a0; a1] Hc).
  cbn [List.map]. rewrite Hr0, Hr1, Hu.
  cbn [Bluebird.map Bluebird.all Bluebird.first_failure Bluebird.results option_map
       List.length Nat.eqb ApiClient.at_index nth].
  assert (Hcfg : exists o, config = VObj o).
  { unfold config. destruct (deepResolve_config_arg a1 r1 H1 Hr1) as [[Hn _]|[o ->]].
    - rewrite Hn. eexists; reflexivity.
    - eexists; reflexivity. }
  fold config.
  replace (if negb (isNil r1) then r1 else VObj []) with config
    by (unfold config; now destruct (isNil r1)).
  rewrite Hm. cbn [ApiClient.call_toLowerCase].
  destruct Hcfg as [o Ho].
  assert (Hbody : (String.eqb (toLowerCase m) "put" || String.eqb (toLowerCase m) "post"
                   || String.eqb (toLowerCase m) "patch") = body_method (toLowerCase m)).
  { unfold body_method. cbn [existsb]. now rewrite orb_false_r, orb_assoc. }
  rewrite Hbody.
  assert (Hdata : data <> VUndefined).
  { unfold data. destruct (isNil r0) eqn:En; [discriminate|].
    destruct (body_method _); [|discriminate]. intros ->. discriminate En. }
  assert (Hparams : params <> VUndefined).
  { unfold params. destruct (isNil r0) eqn:En; [discriminate|].
    destruct (body_method _); [discriminate|]. intros ->. discriminate En. }
  destruct (defaults_obj
              [("url", VStr url); ("method", method); ("data", data); ("params", params)] o)
    as [props [Hd Hg]].
  exists props. split.
  - unfold data, params in Hd.
    destruct (isNil r0); cbn [negb];
      [|destruct (body_method (toLowerCase m))]; rewrite Ho; cbn [isNil]; now rewrite Hd.
  - intros key. rewrite Ho, Hg. now rewrite first_defined_inferred.
Qed.

(** C6: with exactly one trailing config object, the resolved object is the
    request config: every key it defines keeps its value, and [url],
    [method], [data] and [params] get the computed values (the URL built from
    the slugs, the default method, [null], [null]) only where the object
    leaves them undefined. *)
Theorem parseArgs_single_config_is_request_config (this : ApiClient.t) (slugs : list value)
  (o : list (string * value)) (method r : value) (url : string) :
  ends_in_slug slugs ->
  ApiClient._deepResolve (VObj o) = Resolved r ->
  ApiClient._buildUrl this slugs = Some url ->
  exists final,
    ApiClient._parseArgs this (slugs ++ [VObj o; method]) = Done final
    /\ isPlainObject final = true
    /\ forall key,
         get final [key]
         = match get r [key] with
           | VUndefined => inferred (VStr url) method VNull VNull key
           | v => v
           end.
Proof.
  intros Hs Hr Hu.
  destruct (parseArgs_one_config this slugs o method r url Hs Hr Hu) as [props [Hp Hg]].
  exists (VObj props). repeat split; assumption.
Qed.

Lemma parseArgs_single_config_is_request_config_witness :
  exists final,
    ApiClient._parseArgs host_client
      ([VStr "widgets"] ++ [VObj [("method", VStr "POST"); ("timeout", VNum 5)]; VStr "get"])
    = Done final
    /\ isPlainObject final = true
    /\ forall key,
         get final [key]
         = match get (VObj [("method", VStr "POST"); ("timeout", VNum 5)]) [key] with
           | VUndefined =>
               inferred (VStr "https://host/api/widgets") (VStr "get") VNull VNull key
           | v => v
           end.
Proof.
  apply (parseArgs_single_config_is_request_config host_client [VStr "widgets"]
           [("method", VStr "POST"); ("timeout", VNum 5)] (VStr "get")
           (VObj [("method", VStr "POST"); ("timeout", VNum 5)]) "https://host/api/widgets").
  - reflexivity.
  - reflexivity.
  - vm_compute. reflexivity.
Defined.

(** C5: with exactly two trailing config objects, the second resolved
    argument is the request config; the method that routes is the [method]
    key of that config, the default method of the call when the key is
    undefined, lower-cased; the first resolved argument is the computed
    [data] when this method is put, post or patch and the computed [params]
    otherwise (an absent first argument leaves both [null]).  The computed
    values fill the keys the config leaves undefined. *)
Theorem parseArgs_two_configs_route_first (this : ApiClient.t) (slugs : list value)
  (a0 a1 method r0 r1 : value) (m url : string) :
  ends_in_slug slugs ->
  config_object_arg a0 = true -> config_object_arg a1 = true ->
  ApiClient._deepResolve a0 = Resolved r0 ->
  ApiClient._deepResolve a1 = Resolved r1 ->
  ApiClient._buildUrl this slugs = Some url ->
  let config := if isNil r1 then VObj [] else r1 in
  get_or config ["method"] method = VStr m ->
  let data := if isNil r0 then VNull else if body_method (toLowerCase m) then r0 else VNull in
  let params := if isNil r0 then VNull else if body_method (toLowerCase m) then VNull else r0 in
  exists final,
    ApiClient._parseArgs this (slugs ++ [a0; a1; method]) = Done final
    /\ isPlainObject final = true
    /\ forall key,
         get final [key]
         = match get config [key] with
           | VUndefined => inferred (VStr url) method data params key
           | v => v
           end.
Proof.
  intros Hs H0 H1 Hr0 Hr1 Hu config Hm data params.
  destruct (parseArgs_two_configs this slugs a0 a1 method r0 r1 m url Hs H0 H1 Hr0 Hr1 Hu Hm)
    as [props [Hp Hg]].
  exists (VObj props). repeat split; assumption.
Qed.

Lemma parseArgs_two_configs_route_first_witness :
  exists final,
    ApiClient._parseArgs host_client
      ([VStr "widgets"] ++ [VObj [("a", VNum 1)]; VObj [("method", VStr "POST")]; VStr "get"])
    = Done final
    /\ isPlainObject final = true
    /\ forall key,
         get final [key]
         = match get (VObj [("method", VStr "POST")]) [key] with
           | VUndefined =>
               inferred (VStr "https://host/api/widgets") (VStr "get")
                 (VObj [("a", VNum 1)]) VNull key
           | v => v
           end.
Proof.
  apply (parseArgs_two_configs_route_first host_client [VStr "widgets"]
           (VObj [("a", VNum 1)]) (VObj [("method", VStr "POST")]) (VStr "get")
           (VObj [("a", VNum 1)]) (VObj [("method", VStr "POST")]) "POST"
           "https://host/api/widgets").
  - reflexivity.
  - reflexivity.
  - reflexivity.
  - reflexivity.
  - reflexivity.
  - vm_compute. reflexivity.
  - reflexivity.
Defined.

(** ** What the request executor leaves of the parsed config *)

Lemma formDataStep_keeps (W : World) (props : list (string * value)) (key : string) :
  key <> "data" -> key <> "headers" ->
  exists props',
    ApiClient.formDataStep W (VObj props) = VObj props'
    /\ lookup key props' = lookup key props.
Proof.
  intros Hd Hh. unfold ApiClient.formDataStep. cbv zeta.
  destruct (strict_eq_str _ "multipart/form-data" && negb (isNil _));
    [|exists props; split; reflexivity].
  destruct (negb (instanceofFormData _)).
  - set_keeps props key p1 H1 L1. set_keeps p1 key p2 H2 L2.
    exists p2. split; [reflexivity|congruence].
  - set_keeps props key p2 H2 L2. exists p2. split; [reflexivity|assumption].
Qed.

Lemma set_headers_keeps (key : string) (headers : list (string * value)) :
  key <> "headers" ->
  forall props, exists props',
    fold_left
      (fun config kv =>
         match kv with
         | (header, v) => set config ["headers"; header] v
         end)
      headers (VObj props) = VObj props'
    /\ lookup key props' = lookup key props.
Proof.
  intros Hh. induction headers as [|[header v] r IH]; intros props.
  - exists props. split; reflexivity.
  - cbn [fold_left]. set_keeps props key p1 H1 L1.
    destruct (IH p1) as [p2 [H2 L2]].
    exists p2. split; [exact H2|congruence].
Qed.

(** Without a callback that is called, authentication causes no event and
    touches the keys [headers] and [auth] only. *)
Lemma authenticate_without_callback (W : World) (this : ApiClient.t)
  (props : list (string * value)) (key : string) (s : state W) :
  isEmpty (ApiClient._authCallback this) = true ->
  (exists text, toString (get (ApiClient._credentials this) ["token"]) = Some text) ->
  key <> "headers" -> key <> "auth" ->
  exists props',
    ApiClient._authenticate W this (VObj props) s = (Done (VObj props'), s, [])
    /\ lookup key props' = lookup key props.
Proof.
  intros Hcb [text Htok] Hh Ha. unfold ApiClient._authenticate. cbv zeta.
  cbn [isNil]. rewrite Hcb. cbn [negb].
  destruct (has (ApiClient._credentials this) "token").
  { rewrite Htok. set_keeps props key p1 H1 L1.
    exists p1. split; [reflexivity|exact L1]. }
  destruct (has (ApiClient._credentials this) "username"
            && has (ApiClient._credentials this) "password").
  { set_keeps props key p1 H1 L1. exists p1. split; [reflexivity|exact L1]. }
  destruct (has (ApiClient._credentials this) "authHeaders").
  { destruct (set_headers_keeps key
                (own (get (ApiClient._credentials this) ["authHeaders"])) Hh props)
      as [p1 [H1 L1]].
    rewrite H1. exists p1. split; [reflexivity|exact L1]. }
  exists props. split; reflexivity.
Qed.

(** The first event of a request whose arguments parse is the HTTP request,
    issued with the parsed config as the form-data step and the
    authentication leave it. *)
Lemma request_issues_parsed_config (W : World) (fuel : nat) (this : ApiClient.t)
  (arguments : list value) (props : list (string * value)) (key : string) (s : state W) :
  ApiClient._parseArgs this arguments = Done (VObj props) ->
  isEmpty (ApiClient._authCallback this) = true ->
  (exists text, toString (get (ApiClient._credentials this) ["token"]) = Some text) ->
  key <> "data" -> key <> "headers" -> key <> "auth" ->
  exists issued rest out s',
    ApiClient._request W fuel this arguments s = (out, s', EHttp (VObj issued) :: rest)
    /\ lookup key issued = lookup key props.
Proof.
  intros Hp Hcb Htok Hd Hh Ha.
  destruct (formDataStep_keeps W props key Hd Hh) as [p1 [H1 L1]].
  destruct (authenticate_without_callback W this p1 key s Hcb Htok Hh Ha) as [p2 [H2 L2]].
  unfold ApiClient._request. rewrite Hp. unfold bind at 1. unfold stop at 1.
  cbv zeta. rewrite H1. unfold bind at 1. rewrite H2.
  unfold bind at 1. unfold request at 1.
  destruct (axios_request W (VObj p2) s) as [r s1].
  exists p2.
  destruct r as [response| e |]; cbn [of_settled].
  - match goal with
    | |- context [(if ?c then ?a else ?b) s1] =>
        destruct ((if c then a else b) s1) as [[r2 s2] t2]
    end.
    exists t2, r2, s2. split; [reflexivity|congruence].
  - exists [], (Fail e), s1. split; [reflexivity|congruence].
  - exists [], Pend, s1. split; [reflexivity|congruence].
Qed.

(** C10: the argument parser does not lower-case the method of the request
    descriptor.  When the config object of a call with one or two trailing
    config objects supplies the method [m] (for instance [POST]), the parsed
    config has the method [m] as written; and on a client whose callback is
    not called, the HTTP request the executor issues first carries the
    method [m]. *)
Theorem parser_keeps_method_as_written (W : World) (fuel : nat) (this : ApiClient.t)
  (slugs : list value) (o : list (string * value)) (method r : value) (m url : string)
  (arguments : list value) (s : state W) :
  ends_in_slug slugs ->
  ApiClient._deepResolve (VObj o) = Resolved r ->
  get r ["method"] = VStr m ->
  ApiClient._buildUrl this slugs = Some url ->
  (arguments = slugs ++ [VObj o; method]
   \/ exists a0 r0, config_object_arg a0 = true
                    /\ ApiClient._deepResolve a0 = Resolved r0
                    /\ arguments = slugs ++ [a0; VObj o; method]) ->
  (exists final,
      ApiClient._parseArgs this arguments = Done final
      /\ get final ["method"] = VStr m)
  /\ (isEmpty (ApiClient._authCallback this) = true ->
      (exists text, toString (get (ApiClient._credentials this) ["token"]) = Some text) ->
      exists issued rest out s',
        ApiClient._request W fuel this arguments s = (out, s', EHttp issued :: rest)
        /\ get issued ["method"] = VStr m).
Proof.
  intros Hs Hr Hm Hu Hshape.
  assert (Hparse : exists props,
             ApiClient._parseArgs this arguments = Done (VObj props)
             /\ get (VObj props) ["method"] = VStr m).
  { destruct Hshape as [-> | (a0 & r0 & H0 & Hr0 & ->)].
    - destruct (parseArgs_one_config this slugs o method r url Hs Hr Hu) as [props [Hp Hg]].
      exists props. split; [exact Hp|]. now rewrite Hg, Hm.
    - destruct (deepResolve_obj_shape o r Hr) as [o' Ho'].
      assert (Hcfg : (if isNil r then VObj [] else r) = r) by now rewrite Ho'.
      assert (Hget : get_or (if isNil r then VObj [] else r) ["method"] method = VStr m).
      { rewrite Hcfg. unfold get_or. now rewrite Hm. }
      destruct (parseArgs_two_configs this slugs a0 (VObj o) method r0 r m url
                  Hs H0 eq_refl Hr0 Hr Hu Hget) as [props [Hp Hg]].
      exists props. split; [exact Hp|]. now rewrite Hg, Hcfg, Hm. }
  destruct Hparse as [props [Hp Hg]]. split.
  - exists (VObj props). split; assumption.
  - intros Hcb Htok.
    destruct (request_issues_parsed_config W fuel this arguments props "method" s Hp Hcb Htok)
      as (issued & rest & out & s' & Hreq & Hl); try discriminate.
    exists (VObj issued), rest, out, s'. split; [exact Hreq|].
    rewrite get_obj in *. now rewrite Hl.
Qed.

Lemma parser_keeps_method_as_written_witness :
  (exists final,
      ApiClient._parseArgs host_client
        ([VStr "widgets"] ++ [VObj [("a", VNum 1)]; VObj [("method", VStr "POST")]; VStr "get"])
      = Done final
      /\ get final ["method"] = VStr "POST")
  /\ (isEmpty (ApiClient._authCallback host_client) = true ->
      (exists text, toString (get (ApiClient._credentials host_client) ["token"]) = Some text) ->
      exists issued rest out s',
        ApiClient._request quiet_world 0 host_client
          ([VStr "widgets"] ++ [VObj [("a", VNum 1)]; VObj [("method", VStr "POST")]; VStr "get"])
          tt
        = (out, s', EHttp issued :: rest)
        /\ get issued ["method"] = VStr "POST").
Proof.
  apply (parser_keeps_method_as_written quiet_world 0 host_client [VStr "widgets"]
           [("method", VStr "POST")] (VStr "get") (VObj [("method", VStr "POST")])
           "POST" "https://host/api/widgets").
  - reflexivity.
  - reflexivity.
  - reflexivity.
  - vm_compute. reflexivity.
  - right. exists (VObj [("a", VNum 1)]), (VObj [("a", VNum 1)]).
    repeat split; reflexivity.
Defined.

(** ** The form-data step *)

Lemma find_key_lookup (p : string -> bool) (l : list (string * value)) :
  match List.find p (List.map fst l) with
  | Some key =>
      exists v, List.find (fun kv => p (fst kv)) l = Some (key, v) /\ lookup key l = Some v
  | None => List.find (fun kv => p (fst kv)) l = None
  end.
Proof.
  induction l as [|[k v] r IH]; [reflexivity|].
  cbn [List.map List.find fst]. destruct (p k) eqn:Ep.
  - exists v. split; [reflexivity|]. cbn [lookup]. now rewrite String.eqb_refl.
  - destruct (List.find p (List.map fst r)) as [key|] eqn:Ef; [|exact IH].
    destruct IH as [w [Hw Hl]]. exists w. split; [exact Hw|].
    cbn [lookup]. destruct (String.eqb k key) eqn:E; [|exact Hl].
    apply String.eqb_eq in E. subst key.
    apply find_some in Ef. destruct Ef as [_ Ef]. congruence.
Qed.

Lemma has_undefined_prop (h : value) :
  has h "undefined" = false -> prop h "undefined" = VUndefined.
Proof.
  unfold has, prop. destruct (lookup "undefined" (own h)); [discriminate|].
  intros _. destruct h; reflexivity.
Qed.

(** The header the step reads is the content-type header, once the headers
    have no property named [undefined]. *)
Lemma formDataStep_header (props : list (string * value)) :
  let config := VObj props in
  has (get config ["headers"]) "undefined" = false ->
  get config
    ["headers";
     toKey (find (fun key => String.eqb (toLower key) "content-type")
              (keys (get config ["headers"])))]
  = content_type_header config.
Proof.
  intros config Hu. unfold content_type_header, find, keys, toLower.
  set (h := get config ["headers"]) in *.
  assert (Hget : forall key, get config ["headers"; key]
                             = if isNil h then VUndefined else prop h key) by reflexivity.
  rewrite Hget.
  pose proof (find_key_lookup (fun key => String.eqb (toLowerCase key) "content-type") (own h))
    as Hf.
  destruct (List.find _ (List.map fst (own h))) as [key|].
  - destruct Hf as [v [Hv Hl]]. rewrite Hv. cbn [toKey].
    destruct (isNil h) eqn:En; [destruct h; discriminate|].
    unfold prop. now rewrite Hl.
  - rewrite Hf. cbn [toKey]. rewrite has_undefined_prop by assumption.
    now destruct (isNil h).
Qed.

Lemma get_set_same (props : list (string * value)) (key : string) (v : value) :
  exists props', set (VObj props) [key] v = VObj props' /\ get (VObj props') [key] = v.
Proof.
  exists (assoc_set key v props). split; [reflexivity|].
  now rewrite get_obj, lookup_assoc_set_same.
Qed.

Lemma formDataStep_data (W : World) (props : list (string * value)) :
  let config := VObj props in
  has (get config ["headers"]) "undefined" = false ->
  get (ApiClient.formDataStep W config) ["data"]
  = if exact_trigger config
    then VFormData (ApiClient._serializeObjectToFormData (get config ["data"]) [] "")
    else get config ["data"].
Proof.
  intros config Hu. subst config. unfold ApiClient.formDataStep. cbv zeta.
  rewrite (formDataStep_header props Hu).
  unfold exact_trigger, unserialized_body.
  destruct (strict_eq_str (content_type_header (VObj props)) "multipart/form-data");
    [|reflexivity].
  destruct (negb (isNil (get (VObj props) ["data"]))); [|reflexivity].
  cbn [andb]. destruct (negb (instanceofFormData (get (VObj props) ["data"]))).
  - match goal with
    | |- context [set (VObj props) ["data"] ?d] =>
        destruct (get_set_same props "data" d) as [p1 [H1 G1]]
    end.
    rewrite H1.
    match goal with
    | |- context [set (VObj p1) ["headers"] ?h] =>
        destruct (set_obj_other p1 "headers" "data" [] h) as [p2 [H2 L2]]; [discriminate|]
    end.
    rewrite H2. rewrite get_obj in *. now rewrite L2.
  - match goal with
    | |- context [set (VObj props) ["headers"] ?h] =>
        destruct (set_obj_other props "headers" "data" [] h) as [p2 [H2 L2]]; [discriminate|]
    end.
    rewrite H2. rewrite !get_obj. now rewrite L2.
Qed.

(** C4, as the spec states it, fails: for the header
    [Content-Type: Multipart/Form-Data] and a plain object as body, the
    header value equals [multipart/form-data] up to case, the body is present
    and no [FormData], and the body is not serialized. *)
Lemma formData_header_value_case_matters :
  let config := VObj [("headers", VObj [("Content-Type", VStr "Multipart/Form-Data")]);
                      ("data", VObj [("a", VNum 1)])] in
  caseless_trigger config = true
  /\ serialization_triggered quiet_world config = false
  /\ ApiClient.formDataStep quiet_world config = config.
Proof. vm_compute. repeat split; reflexivity. Qed.

(** C4, amended: the body of a request config is serialized to form data if
    and only if the first header whose name is [content-type] up to case has
    exactly the value [multipart/form-data], the body is present and the body
    is no [FormData] instance; the step then stores the serialized body, and
    leaves the body alone otherwise.  (Headers with a property named
    [undefined] are left out.) *)
Theorem formData_serialized_iff_exact_header (W : World) (props : list (string * value)) :
  let config := VObj props in
  has (get config ["headers"]) "undefined" = false ->
  (serialization_triggered W config = true <-> exact_trigger config = true)
  /\ get (ApiClient.formDataStep W config) ["data"]
     = if exact_trigger config
       then VFormData (ApiClient._serializeObjectToFormData (get config ["data"]) [] "")
       else get config ["data"].
Proof.
  intros config Hu. pose proof (formDataStep_data W props Hu) as Hd. fold config in Hd.
  split; [|exact Hd].
  unfold serialization_triggered. rewrite Hd.
  unfold exact_trigger, unserialized_body.
  destruct (strict_eq_str (content_type_header config) "multipart/form-data");
    destruct (isNil (get config ["data"]));
    destruct (instanceofFormData (get config ["data"])) eqn:Ei;
    cbn [andb negb]; try rewrite Ei; cbn [instanceofFormData]; split; congruence.
Qed.

Lemma formData_serialized_iff_exact_header_witness :
  let props := [("headers", VObj [("Content-Type", VStr "multipart/form-data")]);
                ("data", VObj [("a", VArr [VNum 1; VNum 2])])] in
  let config := VObj props in
  (serialization_triggered quiet_world config = true <-> exact_trigger config = true)
  /\ get (ApiClient.formDataStep quiet_world config) ["data"]
     = if exact_trigger config
       then VFormData (ApiClient._serializeObjectToFormData (get config ["data"]) [] "")
       else get config ["data"].
Proof.
  apply (formData_serialized_iff_exact_header quiet_world
           [("headers", VObj [("Content-Type", VStr "multipart/form-data")]);
            ("data", VObj [("a", VArr [VNum 1; VNum 2])])]).
  reflexivity.
Defined.

(** ** Rejections of nested promises *)

Lemma first_failure_in {A} (l : list (settled A)) (e : value) :
  Bluebird.first_failure l = Some e -> In (Failed e) l.
Proof.
  induction l as [|x r IH]; [discriminate|].
  destruct x; cbn [Bluebird.first_failure]; intros H.
  - right. auto.
  - left. congruence.
  - right. auto.
Qed.

Lemma in_first_failure {A} (l : list (settled A)) (e : value) :
  In (Failed e) l -> exists e', Bluebird.first_failure l = Some e'.
Proof.
  induction l as [|x r IH]; [contradiction|].
  intros [->|H]; cbn [Bluebird.first_failure].
  - eexists; reflexivity.
  - destruct x; auto. eexists; reflexivity.
Qed.

Lemma all_failed {A} (l : list (settled A)) (e : value) :
  Bluebird.all l = Failed e <-> Bluebird.first_failure l = Some e.
Proof.
  unfold Bluebird.all. destruct (Bluebird.first_failure l).
  - split; congruence.
  - destruct (Bluebird.results l); split; discriminate.
Qed.

Lemma map_failed (l : list (settled value)) (e : value) :
  Bluebird.map l = Failed e <-> Bluebird.first_failure l = Some e.
Proof.
  rewrite <- all_failed. unfold Bluebird.map.
  destruct (Bluebird.all l); split; congruence.
Qed.

Lemma props_failed (l : list (string * settled value)) (e : value) :
  Bluebird.props l = Failed e <-> Bluebird.first_failure (List.map snd l) = Some e.
Proof.
  rewrite <- all_failed. unfold Bluebird.props.
  destruct (Bluebird.all (List.map snd l)); split; congruence.
Qed.

Lemma deepResolve_arr (xs : list value) :
  ApiClient._deepResolve (VArr xs) = Bluebird.map (List.map mapped_item xs).
Proof. reflexivity. Qed.

Lemma deepResolve_obj (props : list (string * value)) :
  ApiClient._deepResolve (VObj props)
  = Bluebird.props (List.map (fun kv => (fst kv, ApiClient._deepResolve (snd kv))) props).
Proof.
  cbn [ApiClient._deepResolve]. f_equal. apply map_ext. now intros [k v].
Qed.

(** A rejection of the resolver is the rejection of a promise that lies in
    the resolved value. *)
Lemma deepResolve_failure_origin (v : value) (e : value) :
  ApiClient._deepResolve v = Failed e -> contains (VPromise Rejected e) v.
Proof.
  revert e.
  enough (H : (forall e, ApiClient._deepResolve v = Failed e -> contains (VPromise Rejected e) v)
              /\ (forall st x, v = VPromise st x ->
                  forall e, ApiClient._deepResolve x = Failed e ->
                            contains (VPromise Rejected e) x)) by apply H.
  induction v using value_nested_ind;
    try (split; [intros e He; discriminate He | intros st x Hx; discriminate Hx]).
  - (* arrays *)
    split; [|intros st x Hx; discriminate Hx].
    intros e He. rewrite deepResolve_arr in He. apply map_failed in He.
    apply first_failure_in in He. apply in_map_iff in He. destruct He as [x [Hx Hin]].
    rewrite Forall_forall in H. destruct (H x Hin) as [Hsound Hinner].
    apply contains_item with (v := x); [exact Hin|].
    destruct x; try (apply Hsound; exact Hx).
    destruct st; cbn [mapped_item] in Hx.
    + discriminate Hx.
    + apply contains_result. eapply Hinner; [reflexivity|exact Hx].
    + injection Hx as ->. apply contains_here.
  - (* plain objects *)
    split; [|intros st x Hx; discriminate Hx].
    intros e He. rewrite deepResolve_obj in He. apply props_failed in He.
    apply first_failure_in in He. rewrite map_map in He. apply in_map_iff in He.
    destruct He as [[k x] [Hx Hin]]. cbn [fst snd] in Hx.
    rewrite Forall_forall in H. destruct (H (k, x) Hin) as [Hsound _].
    apply contains_prop with (key := k) (v := x); [exact Hin|]. apply Hsound. exact Hx.
  - (* promises *)
    destruct IHv as [Hsound _]. split.
    + intros e He. destruct st; try discriminate He.
      injection He as ->. apply contains_here.
    + intros st' x Hx e He. injection Hx as _ <-. apply Hsound. exact He.
Qed.

(** A rejected promise nested in a value makes the resolver reject. *)
Lemma deepResolve_nested_rejection (p v : value) :
  nested_in p v -> forall e, p = VPromise Rejected e ->
  exists e', ApiClient._deepResolve v = Failed e'.
Proof.
  induction 1 as [|props key v Hin Hn IH|xs v Hin Hn IH]; intros e Hp.
  - subst p. exists e. reflexivity.
  - destruct (IH e Hp) as [e1 He1].
    assert (Hf : In (Failed e1)
                   (List.map snd
                      (List.map (fun kv => (fst kv, ApiClient._deepResolve (snd kv))) props))).
    { rewrite map_map. apply in_map_iff. exists (key, v). split; [exact He1|exact Hin]. }
    apply in_first_failure in Hf. destruct Hf as [e' He'].
    exists e'. rewrite deepResolve_obj. now apply props_failed.
  - assert (Hm : exists e1, mapped_item v = Failed e1).
    { destruct v; try (destruct (IH e Hp) as [e1 He1]; exists e1; exact He1).
      subst p. inversion Hn; subst. eexists; reflexivity. }
    destruct Hm as [e1 He1].
    assert (Hf : In (Failed e1) (List.map mapped_item xs)).
    { apply in_map_iff. exists v. split; assumption. }
    apply in_first_failure in Hf. destruct Hf as [e' He'].
    exists e'. rewrite deepResolve_arr. now apply map_failed.
Qed.

(** C9: when a promise nested in the trailing config objects of a request
    call is rejected, the call is rejected, with the reason of a rejected
    promise that lies in these arguments (the same reason, then, when all the
    rejected promises there share it), and no HTTP request is issued: the
    run causes no event at all. *)
Theorem request_rejects_with_nested_rejection (W : World) (fuel : nat) (this : ApiClient.t)
  (slugs cfgs : list value) (method e : value) (s : state W) :
  ends_in_slug slugs ->
  forallb config_object_arg cfgs = true ->
  (exists a, In a cfgs /\ nested_in (VPromise Rejected e) a) ->
  exists e',
    ApiClient._request W fuel this (slugs ++ cfgs ++ [method]) s = (Fail e', s, [])
    /\ (exists a, In a cfgs /\ contains (VPromise Rejected e') a)
    /\ ((forall a e'', In a cfgs -> contains (VPromise Rejected e'') a -> e'' = e) -> e' = e).
Proof.
  intros Hs Hc [a [Hin Hn]].
  destruct (deepResolve_nested_rejection (VPromise Rejected e) (VArr cfgs)
              (nested_item _ cfgs a Hin Hn) e eq_refl) as [e' He'].
  assert (Horigin : exists a', In a' cfgs /\ contains (VPromise Rejected e') a').
  { pose proof (deepResolve_failure_origin _ _ He') as Hcon.
    inversion Hcon; subst. eexists; split; eassumption. }
  exists e'. split; [|split].
  - destruct (parseArgs_cut slugs cfgs method Hs Hc) as (Hl & Ha & Ht & Hf).
    unfold ApiClient._request, ApiClient._parseArgs. cbv zeta.
    rewrite Hl, Ha, Ht, Hf, He'. reflexivity.
  - exact Horigin.
  - intros Hsame. destruct Horigin as [a' [Hin' Hc']]. eapply Hsame; eassumption.
Qed.

Lemma request_rejects_with_nested_rejection_witness :
  exists e',
    ApiClient._request quiet_world 0 host_client
      ([VStr "widgets"]
         ++ [VObj [("filter", VObj [("ids", VArr [VNum 1; VPromise Rejected (VStr "boom")])])];
             VObj []]
         ++ [VStr "get"]) tt
    = (Fail e', tt, [])
    /\ (exists a,
           In a [VObj [("filter", VObj [("ids", VArr [VNum 1; VPromise Rejected (VStr "boom")])])];
                 VObj []]
           /\ contains (VPromise Rejected e') a)
    /\ ((forall a e'',
            In a [VObj [("filter", VObj [("ids", VArr [VNum 1; VPromise Rejected (VStr "boom")])])];
                  VObj []] ->
            contains (VPromise Rejected e'') a -> e'' = VStr "boom") ->
        e' = VStr "boom").
Proof.
  apply (request_rejects_with_nested_rejection quiet_world 0 host_client [VStr "widgets"]
           [VObj [("filter", VObj [("ids", VArr [VNum 1; VPromise Rejected (VStr "boom")])])];
            VObj []]
           (VStr "get") (VStr "boom") tt).
  - reflexivity.
  - reflexivity.
  - eexists. split; [left; reflexivity|].
    eapply nested_prop; [left; reflexivity|].
    eapply nested_prop; [left; reflexivity|].
    eapply nested_item; [right; left; reflexivity|].
    apply nested_here.
Defined.

(** * Further properties of the code *)

(** ** The form-data serializer, in general *)

Lemma fold_left_appends {A B} (f : list B -> A -> list B) (g : A -> list B) (l : list A) :
  Forall (fun a => forall acc, f acc a = acc ++ g a) l ->
  forall acc, fold_left f l acc = acc ++ flat_map g l.
Proof.
  induction 1 as [|a r Ha _ IH]; intros acc; cbn [fold_left flat_map].
  - now rewrite app_nil_r.
  - now rewrite IH, Ha, app_assoc.
Qed.

Lemma serialize_accumulates (object : value) :
  forall formData path,
    ApiClient._serializeObjectToFormData object formData path
    = formData ++ ApiClient._serializeObjectToFormData object [] path.
Proof.
  induction object using value_nested_ind; intros formData path;
    try reflexivity.
  - cbn. now rewrite app_nil_r.
  - (* arrays *)
    destruct xs as [|x r]; [reflexivity|].
    cbn [ApiClient._serializeObjectToFormData].
    assert (Hf : Forall
                   (fun v => forall acc,
                        ApiClient._serializeObjectToFormData v acc (path ++ "[]")%string
                        = acc ++ ApiClient._serializeObjectToFormData v [] (path ++ "[]")%string)
                   (x :: r)).
    { eapply Forall_impl; [|exact H]. intros v Hv acc. apply Hv. }
    rewrite (fold_left_appends _ _ _ Hf formData), (fold_left_appends _ _ _ Hf []).
    reflexivity.
  - (* plain objects *)
    cbn [ApiClient._serializeObjectToFormData].
    assert (Hf : Forall
                   (fun kv => forall acc,
                        (let (property, v) := kv : string * value in
                         ApiClient._serializeObjectToFormData v acc (property_key path property))
                        = acc ++ ApiClient._serializeObjectToFormData (snd kv) []
                                   (property_key path (fst kv)))
                   props).
    { eapply Forall_impl; [|exact H]. intros [k v] Hv acc. apply Hv. }
    unfold property_key in Hf.
    rewrite (fold_left_appends _ _ _ Hf formData), (fold_left_appends _ _ _ Hf []).
    reflexivity.
Qed.

Lemma serialize_array (x : value) (r : list value) (path : string) :
  ApiClient._serializeObjectToFormData (VArr (x :: r)) [] path
  = flat_map (fun v => ApiClient._serializeObjectToFormData v [] (path ++ "[]")%string) (x :: r).
Proof.
  cbn [ApiClient._serializeObjectToFormData].
  assert (Hf : Forall
                 (fun v => forall acc,
                      ApiClient._serializeObjectToFormData v acc (path ++ "[]")%string
                      = acc ++ ApiClient._serializeObjectToFormData v [] (path ++ "[]")%string)
                 (x :: r)).
  { apply Forall_forall. intros v _ acc. apply serialize_accumulates. }
  now rewrite (fold_left_appends _ _ _ Hf []).
Qed.

Lemma serialize_object (props : list (string * value)) (path : string) :
  ApiClient._serializeObjectToFormData (VObj props) [] path
  = flat_map (fun kv => ApiClient._serializeObjectToFormData (snd kv) []
                          (property_key path (fst kv))) props.
Proof.
  cbn [ApiClient._serializeObjectToFormData].
  assert (Hf : Forall
                 (fun kv => forall acc,
                      (let (property, v) := kv : string * value in
                       ApiClient._serializeObjectToFormData v acc (property_key path property))
                      = acc ++ ApiClient._serializeObjectToFormData (snd kv) []
                                 (property_key path (fst kv)))
                 props).
  { apply Forall_forall. intros [k v] _ acc. apply serialize_accumulates. }
  unfold property_key in Hf. rewrite (fold_left_appends _ _ _ Hf []).
  reflexivity.
Qed.

(** X1: the serializer only appends: the entries a [FormData] already holds
    stay, in their order, and the entries of the value follow them, the same
    ones a fresh accumulator gets. *)
Theorem serialize_only_appends (object : value) (formData : list (string * value))
  (path : string) :
  ApiClient._serializeObjectToFormData object formData path
  = formData ++ ApiClient._serializeObjectToFormData object [] path.
Proof. apply serialize_accumulates. Qed.

Lemma prefix_empty (s : string) : String.prefix "" s = true.
Proof. destruct s; reflexivity. Qed.

Lemma prefix_append (p s : string) : String.prefix p (p ++ s) = true.
Proof.
  induction p as [|a p IH]; [apply prefix_empty|].
  cbn. destruct (ascii_dec a a); [exact IH|contradiction].
Qed.

Lemma prefix_same (p : string) : String.prefix p p = true.
Proof.
  induction p as [|a p IH]; [reflexivity|].
  cbn. destruct (ascii_dec a a); [exact IH|contradiction].
Qed.

Lemma prefix_chain (a : string) :
  forall b c, String.prefix a b = true -> String.prefix b c = true -> String.prefix a c = true.
Proof.
  induction a as [|x a IH]; intros b c Hab Hbc; [apply prefix_empty|].
  destruct b as [|y b]; [discriminate Hab|].
  destruct c as [|z c]; [discriminate Hbc|].
  cbn in *. destruct (ascii_dec x y) as [->|]; [|discriminate Hab].
  destruct (ascii_dec y z) as [->|]; [|discriminate Hbc].
  now apply (IH b c).
Qed.

Lemma prefix_property_key (path property : string) :
  String.prefix path (property_key path property) = true.
Proof.
  unfold property_key. destruct path; [apply prefix_empty|]. cbn [isEmpty]. apply prefix_append.
Qed.

(** X2: every key the serializer appends extends the key path it was given:
    the entries of a value serialized under [path] all have a key that starts
    with [path]. *)
Theorem serialize_keys_extend_path (object : value) (path : string) :
  Forall (fun entry => String.prefix path (fst entry) = true)
    (ApiClient._serializeObjectToFormData object [] path).
Proof.
  revert path. induction object using value_nested_ind; intros path;
    try (repeat constructor; apply prefix_same).
  - destruct xs as [|x r].
    + repeat constructor. apply prefix_append.
    + rewrite serialize_array. apply Forall_flat_map.
      eapply Forall_impl; [|exact H]. intros v Hv.
      eapply Forall_impl; [|apply (Hv (path ++ "[]")%string)].
      intros entry He. eapply prefix_chain; [apply prefix_append|exact He].
  - rewrite serialize_object. apply Forall_flat_map.
    eapply Forall_impl; [|exact H]. intros [k v] Hv. cbn [fst snd] in *.
    eapply Forall_impl; [|apply (Hv (property_key path k))].
    intros entry He. eapply prefix_chain; [apply prefix_property_key|exact He].
Qed.

(** X3: the serializer appends leaves only: no entry of the result holds
    [undefined], a boolean, an array, a date or a plain object (booleans and
    dates have become texts, containers have been descended into). *)
Theorem serialize_appends_leaves (object : value) (path : string) :
  Forall (fun entry => appended_as_is (snd entry) = true)
    (ApiClient._serializeObjectToFormData object [] path).
Proof.
  revert path. induction object using value_nested_ind; intros path;
    try (repeat constructor).
  - destruct xs as [|x r].
    + repeat constructor.
    + rewrite serialize_array. apply Forall_flat_map.
      eapply Forall_impl; [|exact H]. intros v Hv. apply Hv.
  - rewrite serialize_object. apply Forall_flat_map.
    eapply Forall_impl; [|exact H]. intros [k v] Hv. apply Hv.
Qed.

Lemma serialize_leaf (v : value) (path : string) :
  appended_as_is v = true ->
  ApiClient._serializeObjectToFormData v [] path = [(path, v)].
Proof. destruct v; try discriminate; reflexivity. Qed.

Lemma flat_map_singletons {A B} (f : A -> list B) (g : A -> B) (l : list A) :
  Forall (fun a => f a = [g a]) l -> flat_map f l = List.map g l.
Proof.
  induction 1 as [|a r Ha _ IH]; [reflexivity|].
  cbn [flat_map List.map]. now rewrite Ha, IH.
Qed.

(** X4: a non-empty array of leaves is serialized to one entry per element,
    in the order of the elements, all under the key [path[]]. *)
Theorem serialize_array_of_leaves (xs : list value) (path : string) :
  xs <> [] -> Forall (fun v => appended_as_is v = true) xs ->
  ApiClient._serializeObjectToFormData (VArr xs) [] path
  = List.map (fun v => ((path ++ "[]")%string, v)) xs.
Proof.
  intros Hne Hl. destruct xs as [|x r]; [contradiction|].
  rewrite serialize_array. apply flat_map_singletons.
  eapply Forall_impl; [|exact Hl]. intros v Hv. now apply serialize_leaf.
Qed.

Lemma serialize_array_of_leaves_witness :
  ApiClient._serializeObjectToFormData (VArr [VNum 1; VStr "two"; VNull]) [] "tags"
  = List.map (fun v => (("tags" ++ "[]")%string, v)) [VNum 1; VStr "two"; VNull].
Proof.
  apply (serialize_array_of_leaves [VNum 1; VStr "two"; VNull] "tags").
  - discriminate.
  - repeat constructor.
Defined.



(** ** The object resolver, in general *)

Lemma all_of_resolved {A} (l : list A) : Bluebird.all (List.map Resolved l) = Resolved l.
Proof.
  unfold Bluebird.all.
  assert (Hf : Bluebird.first_failure (List.map (@Resolved A) l) = None)
    by (induction l; [reflexivity|assumption]).
  assert (Hr : Bluebird.results (List.map (@Resolved A) l) = Some l).
  { induction l as [|a r IH]; [reflexivity|]. cbn. now rewrite IH. }
  now rewrite Hf, Hr.
Qed.

Lemma results_pointwise {A} (l : list (settled A)) :
  forall rs, Bluebird.results l = Some rs -> Forall2 (fun x r => x = Resolved r) l rs.
Proof.
  induction l as [|x l IH]; intros rs H.
  - injection H as <-. constructor.
  - destruct x; try discriminate H. cbn in H.
    destruct (Bluebird.results l) as [rs'|]; [|discriminate H].
    injection H as <-. constructor; [reflexivity|]. now apply IH.
Qed.

Lemma all_pointwise {A} (l : list (settled A)) (rs : list A) :
  Bluebird.all l = Resolved rs -> Forall2 (fun x r => x = Resolved r) l rs.
Proof.
  unfold Bluebird.all. destruct (Bluebird.first_failure l); [discriminate|].
  destruct (Bluebird.results l) as [rs'|] eqn:E; [|discriminate].
  intros H. injection H as <-. now apply results_pointwise.
Qed.

Lemma combine_fst_snd {A B} (l : list (A * B)) :
  combine (List.map fst l) (List.map snd l) = l.
Proof. induction l as [|[a b] r IH]; [reflexivity|]. cbn. now rewrite IH. Qed.

Lemma existsb_false {A} (f : A -> bool) (l : list A) (x : A) :
  existsb f l = false -> In x l -> f x = false.
Proof.
  intros H Hin. destruct (f x) eqn:E; [|reflexivity].
  rewrite <- H. symmetry. apply existsb_exists. now exists x.
Qed.

Lemma deepResolve_without_promise (v : value) :
  holds_promise v = false -> ApiClient._deepResolve v = Resolved v.
Proof.
  induction v using value_nested_ind; intros Hfree; try reflexivity.
  - (* arrays *)
    rewrite deepResolve_arr. cbn [holds_promise] in Hfree.
    assert (Hm : List.map mapped_item xs = List.map Resolved xs).
    { apply map_ext_in. intros x Hin. rewrite Forall_forall in H.
      pose proof (existsb_false _ _ x Hfree Hin) as Hx.
      destruct x; try (apply H; assumption). discriminate Hx. }
    rewrite Hm. unfold Bluebird.map. now rewrite all_of_resolved.
  - (* plain objects *)
    rewrite deepResolve_obj. cbn [holds_promise] in Hfree.
    assert (Hm : List.map (fun kv => (fst kv, ApiClient._deepResolve (snd kv))) props
                 = List.map (fun kv => (fst kv, Resolved (snd kv))) props).
    { apply map_ext_in. intros [k x] Hin. rewrite Forall_forall in H. cbn [fst snd].
      f_equal. apply (H (k, x) Hin). exact (existsb_false _ _ (k, x) Hfree Hin). }
    rewrite Hm. unfold Bluebird.props. rewrite !map_map. cbn [fst snd].
    rewrite <- (map_map snd Resolved), all_of_resolved.
    now rewrite combine_fst_snd.
  - discriminate Hfree.
Qed.

(** X6: a value without promises resolves to itself: values that are no
    containers pass through, and plain objects and arrays that hold no
    promise at any depth come back with the same keys, elements and order. *)
Theorem deepResolve_promise_free (v : value) :
  holds_promise v = false -> ApiClient._deepResolve v = Resolved v.
Proof. apply deepResolve_without_promise. Qed.

Lemma deepResolve_promise_free_witness :
  ApiClient._deepResolve
    (VObj [("ids", VArr [VNum 1; VNum 2]); ("filter", VObj [("open", VBool true)])])
  = Resolved (VObj [("ids", VArr [VNum 1; VNum 2]); ("filter", VObj [("open", VBool true)])]).
Proof.
  apply (deepResolve_promise_free
           (VObj [("ids", VArr [VNum 1; VNum 2]); ("filter", VObj [("open", VBool true)])])).
  reflexivity.
Defined.

Lemma deepResolve_shape (v r : value) :
  ApiClient._deepResolve v = Resolved r ->
  match v with
  | VObj props =>
      exists props', r = VObj props'
                     /\ List.map fst props' = List.map fst props
                     /\ Forall2 (fun kv kv' => ApiClient._deepResolve (snd kv) = Resolved (snd kv'))
                          props props'
  | VArr xs =>
      exists ys, r = VArr ys /\ Forall2 (fun x y => mapped_item x = Resolved y) xs ys
  | VPromise _ x => r = x
  | _ => r = v
  end.
Proof.
  intros H. destruct v; try (injection H as <-; reflexivity).
  - (* arrays *)
    rewrite deepResolve_arr in H. unfold Bluebird.map in H.
    destruct (Bluebird.all (List.map mapped_item xs)) as [ys| |] eqn:E; try discriminate H.
    injection H as <-. exists ys. split; [reflexivity|].
    apply all_pointwise in E. clear -E.
    remember (List.map mapped_item xs) as l eqn:Hl. revert xs Hl.
    induction E as [|x y l ys Hxy _ IH]; intros xs Hl.
    + destruct xs; [constructor|discriminate Hl].
    + destruct xs as [|x0 xs]; [discriminate Hl|]. injection Hl as -> ->.
      constructor; [exact Hxy|]. now apply IH.
  - (* plain objects *)
    rewrite deepResolve_obj in H. unfold Bluebird.props in H.
    rewrite !map_map in H. cbn [fst snd] in H.
    destruct (Bluebird.all (List.map (fun kv => ApiClient._deepResolve (snd kv)) props))
      as [vals| |] eqn:E; try discriminate H.
    injection H as <-. apply all_pointwise in E.
    exists (combine (List.map fst props) vals).
    split; [reflexivity|]. clear -E.
    remember (List.map (fun kv => ApiClient._deepResolve (snd kv)) props) as l eqn:Hl.
    revert props Hl.
    induction E as [|x y l ys Hxy _ IH]; intros props Hl.
    + destruct props; [split; constructor|discriminate Hl].
    + destruct props as [|[k x0] props]; [discriminate Hl|]. injection Hl as -> ->.
      destruct (IH props eq_refl) as [Hk Hv]. cbn [List.map combine fst snd].
      split; [now rewrite Hk|]. constructor; [exact Hxy|exact Hv].
  - destruct st; try discriminate H. now injection H as <-.
Qed.

(** X7: what the resolver fulfils with has the shape of its argument: a
    plain object gives a plain object with the same keys in the same order,
    each value the resolution of the value it replaces; an array gives an
    array of the same length, each element the resolution of the element at
    its place (of its result, for an element that is a fulfilled promise); a
    promise gives its result; any other value gives itself. *)
Theorem deepResolve_keeps_shape (v r : value) :
  ApiClient._deepResolve v = Resolved r ->
  match v with
  | VObj props =>
      exists props', r = VObj props'
                     /\ List.map fst props' = List.map fst props
                     /\ Forall2 (fun kv kv' => ApiClient._deepResolve (snd kv) = Resolved (snd kv'))
                          props props'
  | VArr xs =>
      exists ys, r = VArr ys /\ Forall2 (fun x y => mapped_item x = Resolved y) xs ys
  | VPromise _ x => r = x
  | _ => r = v
  end.
Proof. apply deepResolve_shape. Qed.

Lemma deepResolve_keeps_shape_witness :
  exists props',
    VObj [("a", VNum 1); ("b", VArr [VStr "x"])] = VObj props'
    /\ List.map fst props' = List.map fst [("a", VPromise Fulfilled (VNum 1)); ("b", VArr [VStr "x"])]
    /\ Forall2 (fun kv kv' => ApiClient._deepResolve (snd kv) = Resolved (snd kv'))
         [("a", VPromise Fulfilled (VNum 1)); ("b", VArr [VStr "x"])] props'.
Proof.
  apply (deepResolve_keeps_shape
           (VObj [("a", VPromise Fulfilled (VNum 1)); ("b", VArr [VStr "x"])])
           (VObj [("a", VNum 1); ("b", VArr [VStr "x"])])).
  reflexivity.
Defined.

(** A promise that never settles keeps the resolver from fulfilling. *)
Lemma deepResolve_nested_pending (p v : value) :
  nested_in p v -> forall x, p = VPromise Pending x ->
  forall r, ApiClient._deepResolve v <> Resolved r.
Proof.
  induction 1 as [|props key v Hin Hn IH|xs v Hin Hn IH]; intros x Hp r Hr.
  - subst p. discriminate Hr.
  - apply deepResolve_shape in Hr. destruct Hr as (props' & _ & _ & Hall).
    assert (Hv : exists val, ApiClient._deepResolve v = Resolved val).
    { clear -Hall Hin. induction Hall as [|kv kv' l l' Hkv _ IHl]; [contradiction|].
      destruct Hin as [->|Hin]; [eexists; exact Hkv|now apply IHl]. }
    destruct Hv as [val Hval]. exact (IH x Hp val Hval).
  - apply deepResolve_shape in Hr. destruct Hr as (ys & _ & Hall).
    assert (Hv : exists y, mapped_item v = Resolved y).
    { clear -Hall Hin. induction Hall as [|a b l l' Hab _ IHl]; [contradiction|].
      destruct Hin as [->|Hin]; [eexists; exact Hab|now apply IHl]. }
    destruct Hv as [y Hy].
    destruct v; try exact (IH x Hp y Hy).
    subst p. inversion Hn; subst. discriminate Hy.
Qed.

Lemma contains_holds_rejected (e v : value) :
  contains (VPromise Rejected e) v -> holds_rejected v = true.
Proof.
  induction 1 as [|props key v Hin _ IH|xs v Hin _ IH|v _ IH].
  - reflexivity.
  - cbn [holds_rejected]. apply existsb_exists. exists (key, v). now split.
  - cbn [holds_rejected]. apply existsb_exists. exists v. now split.
  - exact IH.
Qed.

(** X8: when a promise nested in the trailing config objects never settles
    and no rejected promise lies in them, the call never settles either, and
    no HTTP request is issued: the run causes no event. *)
Theorem request_waits_for_nested_pending (W : World) (fuel : nat) (this : ApiClient.t)
  (slugs cfgs : list value) (method x : value) (s : state W) :
  ends_in_slug slugs ->
  forallb config_object_arg cfgs = true ->
  (exists a, In a cfgs /\ nested_in (VPromise Pending x) a) ->
  existsb holds_rejected cfgs = false ->
  ApiClient._request W fuel this (slugs ++ cfgs ++ [method]) s = (Pend, s, []).
Proof.
  intros Hs Hc [a [Hin Hn]] Hnone.
  destruct (parseArgs_cut slugs cfgs method Hs Hc) as (Hl & Ha & Ht & Hf).
  unfold ApiClient._request, ApiClient._parseArgs. cbv zeta.
  rewrite Hl, Ha, Ht, Hf.
  destruct (ApiClient._deepResolve (VArr cfgs)) as [r|e|] eqn:E.
  - exfalso. eapply (deepResolve_nested_pending (VPromise Pending x) (VArr cfgs));
      [eapply nested_item; eassumption|reflexivity|exact E].
  - exfalso. apply deepResolve_failure_origin in E.
    apply contains_holds_rejected in E. cbn [holds_rejected] in E. congruence.
  - reflexivity.
Qed.

Lemma request_waits_for_nested_pending_witness :
  ApiClient._request quiet_world 0 host_client
    ([VStr "widgets"] ++ [VObj [("q", VPromise Pending VUndefined)]; VObj []] ++ [VStr "get"]) tt
  = (Pend, tt, []).
Proof.
  apply (request_waits_for_nested_pending quiet_world 0 host_client [VStr "widgets"]
           [VObj [("q", VPromise Pending VUndefined)]; VObj []] (VStr "get") VUndefined tt).
  - reflexivity.
  - reflexivity.
  - eexists. split; [left; reflexivity|].
    eapply nested_prop; [left; reflexivity|apply nested_here].
  - reflexivity.
Defined.

(** ** The argument parser, in general *)

Lemma nils_hold_no_promise (cfgs : list value) :
  forallb isNil cfgs = true -> existsb holds_promise cfgs = false.
Proof.
  induction cfgs as [|a r IH]; [reflexivity|].
  cbn [forallb existsb]. intros H. apply andb_true_iff in H. destruct H as [Ha Hr].
  rewrite (IH Hr). now destruct a.
Qed.

Lemma nils_are_config_objects (cfgs : list value) :
  forallb isNil cfgs = true -> forallb config_object_arg cfgs = true.
Proof.
  induction cfgs as [|a r IH]; [reflexivity|].
  cbn [forallb]. intros H. apply andb_true_iff in H. destruct H as [Ha Hr].
  rewrite (IH Hr). unfold config_object_arg. rewrite Ha. now rewrite orb_true_r.
Qed.

Lemma assign_nils (sources : list value) (props : list (string * value)) :
  forallb isNil sources = true -> assign (VObj props) sources = VObj props.
Proof.
  unfold assign. induction sources as [|a r IH]; [reflexivity|].
  cbn [forallb fold_left]. intros H. apply andb_true_iff in H. destruct H as [Ha Hr].
  destruct a; try discriminate Ha; cbn [own fold_left]; now apply IH.
Qed.

(** X9: absent trailing arguments count for nothing: whatever the number of
    trailing [undefined] or [null] arguments of a verb call, the request
    config is exactly the URL built from the slugs, the method of the verb,
    and [null] for [data] and [params]. *)
Theorem parseArgs_absent_configs (this : ApiClient.t) (slugs cfgs : list value)
  (verb url : string) :
  ends_in_slug slugs ->
  forallb isNil cfgs = true ->
  ApiClient._buildUrl this slugs = Some url ->
  ApiClient._parseArgs this (slugs ++ cfgs ++ [VStr verb])
  = Done (VObj [("url", VStr url); ("method", VStr verb); ("data", VNull); ("params", VNull)]).
Proof.
  intros Hs Hn Hu.
  pose proof (nils_are_config_objects cfgs Hn) as Hc.
  destruct (parseArgs_cut slugs cfgs (VStr verb) Hs Hc) as (Hl & Ha & Ht & Hf).
  unfold ApiClient._parseArgs. cbv zeta. rewrite Hl, Ha, Ht, Hf.
  rewrite (deepResolve_without_promise (VArr cfgs)) by (now apply nils_hold_no_promise).
  rewrite Hu.
  destruct cfgs as [|a [|b [|c rest]]].
  - reflexivity.
  - cbn [forallb] in Hn. destruct a; try discriminate Hn; reflexivity.
  - cbn [forallb] in Hn. destruct a; try discriminate Hn; destruct b; try discriminate Hn;
      reflexivity.
  - cbn [List.length Nat.eqb ApiClient.at_index nth ApiClient.elements sliceFrom skipn].
    assert (Hrest : forallb isNil (c :: rest) = true).
    { cbn [forallb] in Hn. apply andb_true_iff in Hn. destruct Hn as [_ Hn].
      apply andb_true_iff in Hn. now destruct Hn. }
    rewrite (assign_nils (c :: rest) [] Hrest).
    cbn [forallb] in Hn. destruct a; try discriminate Hn; destruct b; try discriminate Hn;
      reflexivity.
Qed.

Lemma parseArgs_absent_configs_witness :
  ApiClient._parseArgs host_client
    ([VArr [VStr "widgets"; VNum 7]] ++ [VUndefined; VNull; VUndefined] ++ [VStr "delete"])
  = Done (VObj [("url", VStr "https://host/api/widgets/7"); ("method", VStr "delete");
                ("data", VNull); ("params", VNull)]).
Proof.
  apply (parseArgs_absent_configs host_client [VArr [VStr "widgets"; VNum 7]]
           [VUndefined; VNull; VUndefined] "delete" "https://host/api/widgets/7").
  - reflexivity.
  - reflexivity.
  - vm_compute. reflexivity.
Defined.

Lemma lookup_app (key : string) (l r : list (string * value)) :
  lookup key (l ++ r) = match lookup key l with Some v => Some v | None => lookup key r end.
Proof.
  induction l as [|[k v] l IH]; [reflexivity|].
  cbn [app lookup]. now destruct (String.eqb k key).
Qed.

Lemma assign_all_last (l : list (string * value)) :
  forall props, exists props',
    fold_left (fun object kv => assignValue object (fst kv) (snd kv)) l (VObj props)
    = VObj props'
    /\ forall key, lookup key props'
                   = match lookup key (rev l) with
                     | Some v => Some v
                     | None => lookup key props
                     end.
Proof.
  induction l as [|[k v] l IH]; intros props.
  - exists props. split; reflexivity.
  - cbn [fold_left fst snd assignValue].
    destruct (IH (assoc_set k v props)) as [props' [Hf Hl]].
    exists props'. split; [exact Hf|]. intros key. rewrite Hl.
    cbn [rev]. rewrite lookup_app. destruct (lookup key (rev l)); [reflexivity|].
    cbn [lookup]. destruct (String.eqb k key) eqn:E.
    + apply String.eqb_eq in E. subst key. apply lookup_assoc_set_same.
    + apply String.eqb_neq in E. now apply lookup_assoc_set_other.
Qed.

Lemma fold_left_flat_map {A B C} (f : A -> C -> A) (g : B -> list C) (l : list B) :
  forall a, fold_left (fun a x => fold_left f (g x) a) l a = fold_left f (flat_map g l) a.
Proof.
  induction l as [|x l IH]; intros a; [reflexivity|].
  cbn [fold_left flat_map]. now rewrite fold_left_app, IH.
Qed.

(** The shallow merge of [_.assign]: under each key, the value assigned
    last. *)
Lemma assign_last (sources : list value) :
  exists props,
    assign (VObj []) sources = VObj props
    /\ forall key, get (VObj props) [key]
                   = match last_assigned key sources with
                     | Some v => v
                     | None => VUndefined
                     end.
Proof.
  unfold assign. rewrite (fold_left_flat_map _ own sources).
  destruct (assign_all_last (flat_map own sources) []) as [props [Hf Hl]].
  exists props. split; [exact Hf|]. intros key. rewrite get_obj, Hl.
  unfold last_assigned. now destruct (lookup key (rev (flat_map own sources))).
Qed.

(** X10: with three or more trailing config objects, whatever the method,
    the first resolved argument is the computed [params], the second the
    computed [data], and the config is the shallow merge of the remaining
    ones: under each key the value of the last of them that has the key; the
    computed values fill the keys that the merge leaves undefined. *)
Theorem parseArgs_many_configs (this : ApiClient.t) (slugs : list value)
  (a0 a1 : value) (rest : list value) (method r0 r1 : value) (rs : list value) (url : string) :
  ends_in_slug slugs ->
  forallb config_object_arg (a0 :: a1 :: rest) = true ->
  rest <> [] ->
  ApiClient._deepResolve (VArr (a0 :: a1 :: rest)) = Resolved (VArr (r0 :: r1 :: rs)) ->
  ApiClient._buildUrl this slugs = Some url ->
  let params := if isNil r0 then VNull else r0 in
  let data := if isNil r1 then VNull else r1 in
  exists final,
    ApiClient._parseArgs this (slugs ++ (a0 :: a1 :: rest) ++ [method]) = Done final
    /\ isPlainObject final = true
    /\ forall key,
         get final [key]
         = match last_assigned key rs with
           | Some VUndefined | None => inferred (VStr url) method data params key
           | Some v => v
           end.
Proof.
  intros Hs Hc Hne Hr Hu params data.
  destruct (parseArgs_cut slugs (a0 :: a1 :: rest) method Hs Hc) as (Hl & Ha & Ht & Hf).
  unfold ApiClient._parseArgs. cbv zeta. rewrite Hl, Ha, Ht, Hf, Hr, Hu.
  destruct rest as [|c rest]; [contradiction|].
  cbn [List.length Nat.eqb ApiClient.at_index nth ApiClient.elements sliceFrom skipn].
  destruct (assign_last rs) as [merged [Hm Hg]]. rewrite Hm. cbn [isNil].
  assert (Hp : (if negb (isNil r0) then r0 else VNull) = params)
    by (unfold params; now destruct (isNil r0)).
  assert (Hd : (if negb (isNil r1) then r1 else VNull) = data)
    by (unfold data; now destruct (isNil r1)).
  rewrite Hp, Hd.
  destruct (defaults_obj
              [("url", VStr url); ("method", method); ("data", data); ("params", params)] merged)
    as [props [Hdef Hget]].
  rewrite Hdef. exists (VObj props). repeat split.
  intros key. rewrite Hget, Hg.
  assert (Hdu : data <> VUndefined)
    by (unfold data; destruct (isNil r1) eqn:E; [discriminate|intros ->; discriminate E]).
  assert (Hpu : params <> VUndefined)
    by (unfold params; destruct (isNil r0) eqn:E; [discriminate|intros ->; discriminate E]).
  rewrite first_defined_inferred by assumption.
  destruct (last_assigned key rs) as [[]|]; reflexivity.
Qed.

Lemma parseArgs_many_configs_witness :
  exists final,
    ApiClient._parseArgs host_client
      ([VStr "widgets"]
         ++ [VObj [("page", VNum 2)]; VObj [("name", VStr "n")];
             VObj [("timeout", VNum 5); ("method", VStr "PUT")]; VObj [("timeout", VNum 9)]]
         ++ [VStr "get"])
    = Done final
    /\ isPlainObject final = true
    /\ forall key,
         get final [key]
         = match last_assigned key
                   [VObj [("timeout", VNum 5); ("method", VStr "PUT")];
                    VObj [("timeout", VNum 9)]] with
           | Some VUndefined | None =>
               inferred (VStr "https://host/api/widgets") (VStr "get")
                 (VObj [("name", VStr "n")]) (VObj [("page", VNum 2)]) key
           | Some v => v
           end.
Proof.
  apply (parseArgs_many_configs host_client [VStr "widgets"]
           (VObj [("page", VNum 2)]) (VObj [("name", VStr "n")])
           [VObj [("timeout", VNum 5); ("method", VStr "PUT")]; VObj [("timeout", VNum 9)]]
           (VStr "get") (VObj [("page", VNum 2)]) (VObj [("name", VStr "n")])
           [VObj [("timeout", VNum 5); ("method", VStr "PUT")]; VObj [("timeout", VNum 9)]]
           "https://host/api/widgets").
  - reflexivity.
  - reflexivity.
  - discriminate.
  - reflexivity.
  - vm_compute. reflexivity.
Defined.

(** X11: with two trailing config objects, a method that is no text (a
    number, [null], a boolean, ...) makes the call fail with a [TypeError]
    when it is lower-cased: the promise of the parser is rejected and the
    request executor issues no HTTP request. *)
Theorem parseArgs_two_configs_method_not_text (W : World) (fuel : nat) (this : ApiClient.t)
  (slugs : list value) (a0 a1 method r0 r1 v : value) (url : string) (s : state W) :
  ends_in_slug slugs ->
  config_object_arg a0 = true -> config_object_arg a1 = true ->
  ApiClient._deepResolve a0 = Resolved r0 ->
  ApiClient._deepResolve a1 = Resolved r1 ->
  ApiClient._buildUrl this slugs = Some url ->
  get_or (if isNil r1 then VObj [] else r1) ["method"] method = v ->
  (forall text, v <> VStr text) ->
  has v "toLowerCase" = false ->
  ApiClient._parseArgs this (slugs ++ [a0; a1; method]) = Fail TypeError
  /\ ApiClient._request W fuel this (slugs ++ [a0; a1; method]) s = (Fail TypeError, s, []).
Proof.
  intros Hs H0 H1 Hr0 Hr1 Hu Hm Hv Hh.
  assert (Hc : forallb config_object_arg [a0; a1] = true)
    by (cbn [forallb]; now rewrite H0, H1).
  assert (Hp : ApiClient._parseArgs this (slugs ++ [a0; a1; method]) = Fail TypeError).
  { destruct (parseArgs_cut slugs [a0; a1] method Hs Hc) as (Hl & Ha & Ht & Hf).
    change (slugs ++ [a0; a1; method]) with (slugs ++ [a0; a1] ++ [method]).
    unfold ApiClient._parseArgs. cbv zeta. rewrite Hl, Ha, Ht, Hf.
    rewrite (deepResolve_configs [a0; a1] Hc). cbn [List.map]. rewrite Hr0, Hr1, Hu.
    cbn [Bluebird.map Bluebird.all Bluebird.first_failure Bluebird.results option_map
         List.length Nat.eqb ApiClient.at_index nth].
    replace (if negb (isNil r1) then r1 else VObj []) with (if isNil r1 then VObj [] else r1)
      by (now destruct (isNil r1)).
    rewrite Hm.
    assert (Hlow : ApiClient.call_toLowerCase v = Fail TypeError).
    { destruct v; try reflexivity; cbn [ApiClient.call_toLowerCase].
      - exfalso. now apply (Hv s0).
      - now rewrite Hh.
      - now rewrite Hh. }
    now rewrite Hlow. }
  split; [exact Hp|].
  unfold ApiClient._request. now rewrite Hp.
Qed.

Lemma parseArgs_two_configs_method_not_text_witness :
  ApiClient._parseArgs host_client
    ([VStr "widgets"] ++ [VObj [("a", VNum 1)]; VObj [("method", VNum 5)]; VStr "get"])
  = Fail TypeError
  /\ ApiClient._request quiet_world 0 host_client
       ([VStr "widgets"] ++ [VObj [("a", VNum 1)]; VObj [("method", VNum 5)]; VStr "get"]) tt
     = (Fail TypeError, tt, []).
Proof.
  apply (parseArgs_two_configs_method_not_text quiet_world 0 host_client [VStr "widgets"]
           (VObj [("a", VNum 1)]) (VObj [("method", VNum 5)]) (VStr "get")
           (VObj [("a", VNum 1)]) (VObj [("method", VNum 5)]) (VNum 5)
           "https://host/api/widgets" tt).
  - reflexivity.
  - reflexivity.
  - reflexivity.
  - reflexivity.
  - reflexivity.
  - vm_compute. reflexivity.
  - reflexivity.
  - discriminate.
  - reflexivity.
Defined.

(** ** Authentication, in general *)

Lemma prop_assignValue_same (o : value) (key : string) (v : value) :
  holder o = true -> prop (assignValue o key v) key = v.
Proof.
  destruct o; try discriminate; intros _; unfold prop; cbn [assignValue own];
    now rewrite lookup_assoc_set_same.
Qed.

Lemma prop_assignValue_other (o : value) (key key' : string) (v : value) :
  key <> key' -> prop (assignValue o key v) key' = prop o key'.
Proof.
  intros Hne. destruct o; try reflexivity; unfold prop; cbn [assignValue own];
    now rewrite lookup_assoc_set_other.
Qed.

Lemma holder_assignValue (o : value) (key : string) (v : value) :
  holder o = true -> holder (assignValue o key v) = true.
Proof. destruct o; try discriminate; reflexivity. Qed.

(** The object a header is set on: the headers of the config when they hold
    properties, a fresh object when they are absent. *)
Lemma set_header (props : list (string * value)) (h : string) (v : value) :
  headers_ok (VObj props) = true ->
  exists headers,
    set (VObj props) ["headers"; h] v = VObj (assoc_set "headers" headers props)
    /\ holder headers = true
    /\ prop headers h = v
    /\ forall h', h <> h' -> prop headers h' = get (VObj props) ["headers"; h'].
Proof.
  intros Hok. unfold headers_ok in Hok.
  assert (Hget : forall k, get (VObj props) ["headers"; k]
                           = if isNil (get (VObj props) ["headers"]) then VUndefined
                             else prop (get (VObj props) ["headers"]) k) by reflexivity.
  change (set (VObj props) ["headers"; h] v)
    with (VObj (assoc_set "headers"
                  (assignValue (if isObject (get (VObj props) ["headers"])
                                then get (VObj props) ["headers"] else VObj []) h v) props)).
  set (H := get (VObj props) ["headers"]) in *.
  eexists. split; [reflexivity|].
  destruct H eqn:EH; try discriminate Hok; cbn [isObject isNil] in *.
  - repeat split; [apply prop_assignValue_same; reflexivity|].
    intros h' Hne. rewrite Hget. now rewrite prop_assignValue_other.
  - repeat split; [apply prop_assignValue_same; reflexivity|].
    intros h' Hne. rewrite Hget. now rewrite prop_assignValue_other.
  - repeat split; [apply prop_assignValue_same; reflexivity|].
    intros h' Hne. rewrite Hget. now rewrite prop_assignValue_other.
  - repeat split; [apply prop_assignValue_same; reflexivity|].
    intros h' Hne. rewrite Hget. now rewrite prop_assignValue_other.
Qed.

Lemma get_headers_after (props : list (string * value)) (headers : value) (h : string) :
  holder headers = true ->
  get (VObj (assoc_set "headers" headers props)) ["headers"; h] = prop headers h.
Proof.
  intros Hh.
  assert (Hp : prop (VObj (assoc_set "headers" headers props)) "headers" = headers)
    by (unfold prop; cbn [own]; now rewrite lookup_assoc_set_same).
  change (get (VObj (assoc_set "headers" headers props)) ["headers"; h])
    with (if isNil (prop (VObj (assoc_set "headers" headers props)) "headers") then VUndefined
          else prop (prop (VObj (assoc_set "headers" headers props)) "headers") h).
  rewrite Hp. now destruct headers.
Qed.

Lemma get_other_after (props : list (string * value)) (key key' : string) (x : value) :
  key <> key' -> get (VObj (assoc_set key x props)) [key'] = get (VObj props) [key'].
Proof. intros Hne. rewrite !get_obj. now rewrite lookup_assoc_set_other. Qed.

Lemma authenticate_token (W : World) (this : ApiClient.t) (props : list (string * value))
  (text : string) (s : state W) :
  isEmpty (ApiClient._authCallback this) = true ->
  has (ApiClient._credentials this) "token" = true ->
  toString (get (ApiClient._credentials this) ["token"]) = Some text ->
  headers_ok (VObj props) = true ->
  exists props',
    ApiClient._authenticate W this (VObj props) s = (Done (VObj props'), s, [])
    /\ get (VObj props') ["headers"; "Authorization"] = VStr ("Bearer " ++ text)
    /\ (forall h, h <> "Authorization" ->
          get (VObj props') ["headers"; h] = get (VObj props) ["headers"; h])
    /\ (forall key, key <> "headers" -> get (VObj props') [key] = get (VObj props) [key]).
Proof.
  intros Hcb Ht Htext Hok. unfold ApiClient._authenticate. cbv zeta.
  cbn [isNil]. rewrite Hcb, Ht, Htext. cbn [negb].
  destruct (set_header props "Authorization" (VStr ("Bearer " ++ text)) Hok)
    as (headers & Hset & Hh & Hsame & Hother).
  rewrite Hset. eexists. split; [reflexivity|]. repeat split.
  - now rewrite get_headers_after.
  - intros h Hne. rewrite get_headers_after by assumption. apply Hother.
    intros E. apply Hne. now symmetry.
  - intros key Hne. apply get_other_after. intros E. apply Hne. now symmetry.
Qed.

(** X12: a client with a token (and a callback that is not called) puts
    [Authorization: Bearer <token>] on the config, whatever other credentials
    it holds: it sets no [auth], keeps every other key of the config and
    every other header, and causes no event. *)
Theorem authenticate_with_token (W : World) (this : ApiClient.t)
  (props : list (string * value)) (text : string) (s : state W) :
  isEmpty (ApiClient._authCallback this) = true ->
  has (ApiClient._credentials this) "token" = true ->
  toString (get (ApiClient._credentials this) ["token"]) = Some text ->
  headers_ok (VObj props) = true ->
  exists props',
    ApiClient._authenticate W this (VObj props) s = (Done (VObj props'), s, [])
    /\ get (VObj props') ["headers"; "Authorization"] = VStr ("Bearer " ++ text)
    /\ (forall h, h <> "Authorization" ->
          get (VObj props') ["headers"; h] = get (VObj props) ["headers"; h])
    /\ (forall key, key <> "headers" -> get (VObj props') [key] = get (VObj props) [key]).
Proof. apply authenticate_token. Qed.

Lemma authenticate_with_token_witness :
  exists props',
    ApiClient._authenticate quiet_world
      (ApiClient.mk (VStr "host") (VNum 443) (VStr "https:") (VStr "/api/") VUndefined
         (VObj [("token", VStr "t"); ("username", VStr "u"); ("password", VStr "p")]))
      (VObj [("headers", VObj [("Accept", VStr "text/plain")]); ("url", VStr "u")]) tt
    = (Done (VObj props'), tt, [])
    /\ get (VObj props') ["headers"; "Authorization"] = VStr ("Bearer " ++ "t")
    /\ (forall h, h <> "Authorization" ->
          get (VObj props') ["headers"; h]
          = get (VObj [("headers", VObj [("Accept", VStr "text/plain")]); ("url", VStr "u")])
              ["headers"; h])
    /\ (forall key, key <> "headers" ->
          get (VObj props') [key]
          = get (VObj [("headers", VObj [("Accept", VStr "text/plain")]); ("url", VStr "u")])
              [key]).
Proof.
  apply (authenticate_with_token quiet_world
           (ApiClient.mk (VStr "host") (VNum 443) (VStr "https:") (VStr "/api/") VUndefined
              (VObj [("token", VStr "t"); ("username", VStr "u"); ("password", VStr "p")]))
           [("headers", VObj [("Accept", VStr "text/plain")]); ("url", VStr "u")] "t" tt).
  - reflexivity.
  - reflexivity.
  - reflexivity.
  - reflexivity.
Defined.

(** X13: a client with a username and a password and no token sets the
    [auth] key of the config to these two, keeps every other key, the
    headers among them, and causes no event. *)
Theorem authenticate_with_password (W : World) (this : ApiClient.t)
  (props : list (string * value)) (s : state W) :
  isEmpty (ApiClient._authCallback this) = true ->
  has (ApiClient._credentials this) "token" = false ->
  has (ApiClient._credentials this) "username" = true ->
  has (ApiClient._credentials this) "password" = true ->
  exists props',
    ApiClient._authenticate W this (VObj props) s = (Done (VObj props'), s, [])
    /\ get (VObj props') ["auth"]
       = VObj [("username", get (ApiClient._credentials this) ["username"]);
               ("password", get (ApiClient._credentials this) ["password"])]
    /\ (forall key, key <> "auth" -> get (VObj props') [key] = get (VObj props) [key]).
Proof.
  intros Hcb Ht Hu Hp. unfold ApiClient._authenticate. cbv zeta.
  cbn [isNil]. rewrite Hcb, Ht, Hu, Hp. cbn [negb andb].
  eexists. split; [reflexivity|]. split.
  - now rewrite get_obj, lookup_assoc_set_same.
  - intros key Hne. apply get_other_after. intros E. apply Hne. now symmetry.
Qed.

Lemma authenticate_with_password_witness :
  exists props',
    ApiClient._authenticate quiet_world
      (ApiClient.mk (VStr "host") (VNum 443) (VStr "https:") (VStr "/api/") VUndefined
         (VObj [("username", VStr "u"); ("password", VStr "p")]))
      (VObj [("url", VStr "u")]) tt
    = (Done (VObj props'), tt, [])
    /\ get (VObj props') ["auth"]
       = VObj [("username",
                get (ApiClient._credentials
                       (ApiClient.mk (VStr "host") (VNum 443) (VStr "https:") (VStr "/api/")
                          VUndefined (VObj [("username", VStr "u"); ("password", VStr "p")])))
                  ["username"]);
               ("password",
                get (ApiClient._credentials
                       (ApiClient.mk (VStr "host") (VNum 443) (VStr "https:") (VStr "/api/")
                          VUndefined (VObj [("username", VStr "u"); ("password", VStr "p")])))
                  ["password"])]
    /\ (forall key, key <> "auth" ->
          get (VObj props') [key] = get (VObj [("url", VStr "u")]) [key]).
Proof.
  apply (authenticate_with_password quiet_world
           (ApiClient.mk (VStr "host") (VNum 443) (VStr "https:") (VStr "/api/") VUndefined
              (VObj [("username", VStr "u"); ("password", VStr "p")]))
           [("url", VStr "u")] tt); reflexivity.
Defined.

(** X14: a client without credentials that apply (no token, no username
    with password, no custom headers) and without a callback that is called
    returns the config as it is, a fresh empty one for an absent config, and
    causes no event: the request is anonymous, never an error. *)
Theorem authenticate_without_credentials (W : World) (this : ApiClient.t) (config : value)
  (s : state W) :
  isEmpty (ApiClient._authCallback this) = true ->
  has (ApiClient._credentials this) "token" = false ->
  has (ApiClient._credentials this) "username" && has (ApiClient._credentials this) "password"
  = false ->
  has (ApiClient._credentials this) "authHeaders" = false ->
  ApiClient._authenticate W this config s
  = (Done (if isNil config then VObj [] else config), s, []).
Proof.
  intros Hcb Ht Hup Hh. unfold ApiClient._authenticate. cbv zeta.
  now rewrite Hcb, Ht, Hup, Hh.
Qed.

Lemma authenticate_without_credentials_witness :
  ApiClient._authenticate quiet_world host_client (VObj [("url", VStr "u")]) tt
  = (Done (if isNil (VObj [("url", VStr "u")]) then VObj [] else VObj [("url", VStr "u")]),
     tt, []).
Proof.
  apply (authenticate_without_credentials quiet_world host_client (VObj [("url", VStr "u")]) tt);
    reflexivity.
Defined.

(** X15: a configured callback that is not empty and is no function (a text,
    a plain object with properties, a non-empty array) makes the
    authentication throw a [TypeError] without any event; a request of such a
    client is rejected with it before any HTTP request is issued. *)
Theorem authenticate_callback_not_callable (W : World) (fuel : nat) (this : ApiClient.t)
  (config : value) (arguments : list value) (parsed : value) (s : state W) :
  isEmpty (ApiClient._authCallback this) = false ->
  (forall id props, ApiClient._authCallback this <> VFun id props) ->
  ApiClient._parseArgs this arguments = Done parsed ->
  ApiClient._authenticate W this config s = (Fail TypeError, s, [])
  /\ ApiClient._request W fuel this arguments s = (Fail TypeError, s, []).
Proof.
  intros Hcb Hnf Hp.
  assert (Ha : forall config, ApiClient._authenticate W this config s = (Fail TypeError, s, [])).
  { intros c. unfold ApiClient._authenticate. cbv zeta. rewrite Hcb. cbn [negb].
    destruct (ApiClient._authCallback this) eqn:E; try reflexivity.
    exfalso. now apply (Hnf id props). }
  split; [apply Ha|].
  unfold ApiClient._request. rewrite Hp. unfold bind at 1. unfold stop at 1.
  cbv zeta. unfold bind at 1. now rewrite Ha.
Qed.

Lemma authenticate_callback_not_callable_witness :
  ApiClient._authenticate quiet_world
    (ApiClient.mk (VStr "host") (VNum 443) (VStr "https:") (VStr "/api/") (VStr "sign")
       (VObj []))
    (VObj []) tt
  = (Fail TypeError, tt, [])
  /\ ApiClient._request quiet_world 0
       (ApiClient.mk (VStr "host") (VNum 443) (VStr "https:") (VStr "/api/") (VStr "sign")
          (VObj []))
       [VStr "widgets"; VStr "get"] tt
     = (Fail TypeError, tt, []).
Proof.
  apply (authenticate_callback_not_callable quiet_world 0
           (ApiClient.mk (VStr "host") (VNum 443) (VStr "https:") (VStr "/api/") (VStr "sign")
              (VObj []))
           (VObj []) [VStr "widgets"; VStr "get"]
           (VObj [("url", VStr "https://host/api/widgets"); ("method", VStr "get");
                  ("data", VNull); ("params", VNull)]) tt).
  - reflexivity.
  - discriminate.
  - vm_compute. reflexivity.
Defined.







(** X17: the constructor gives the top-level [token] precedence over every
    other kind of credentials in its parameters: a client constructed from
    parameters that have a [token] (and no callback that is called)
    authenticates with [Authorization: Bearer <token>] and nothing else. *)
Theorem constructed_with_token_authenticates (W : World) (params : value) (this : ApiClient.t)
  (props : list (string * value)) (text : string) (s : state W) :
  ApiClient.constructor params = Some this ->
  has params "token" = true ->
  toString (get params ["token"]) = Some text ->
  isEmpty (if has params "authCallback" then get params ["authCallback"] else VUndefined) = true ->
  headers_ok (VObj props) = true ->
  exists props',
    ApiClient._authenticate W this (VObj props) s = (Done (VObj props'), s, [])
    /\ get (VObj props') ["headers"; "Authorization"] = VStr ("Bearer " ++ text)
    /\ (forall h, h <> "Authorization" ->
          get (VObj props') ["headers"; h] = get (VObj props) ["headers"; h])
    /\ (forall key, key <> "headers" -> get (VObj props') [key] = get (VObj props) [key]).
Proof.
  intros Hc Ht Htext Hcb Hok.
  assert (Hfields : ApiClient._authCallback this
                    = (if has params "authCallback" then get params ["authCallback"]
                       else VUndefined)
                    /\ ApiClient._credentials this = VObj [("token", get params ["token"])]).
  { unfold ApiClient.constructor in Hc. cbv zeta in Hc. rewrite Ht in Hc.
    destruct (negb (isNil (get params ["baseUrl"]))).
    - destruct (toString (get params ["baseUrl"])); [|discriminate Hc].
      destruct (URL.new s0 None); [|discriminate Hc].
      injection Hc as <-. split; reflexivity.
    - injection Hc as <-. split; reflexivity. }
  destruct Hfields as [Hf1 Hf2].
  apply authenticate_token; rewrite ?Hf1, ?Hf2; try assumption; reflexivity.
Qed.

Lemma constructed_with_token_authenticates_witness :
  exists props',
    ApiClient._authenticate quiet_world
      (ApiClient.mk (VStr "host") (VNum 443) (VStr "https:") (VStr "/api/") VUndefined
         (VObj [("token", VStr "t")]))
      (VObj [("url", VStr "u")]) tt
    = (Done (VObj props'), tt, [])
    /\ get (VObj props') ["headers"; "Authorization"] = VStr ("Bearer " ++ "t")
    /\ (forall h, h <> "Authorization" ->
          get (VObj props') ["headers"; h] = get (VObj [("url", VStr "u")]) ["headers"; h])
    /\ (forall key, key <> "headers" ->
          get (VObj props') [key] = get (VObj [("url", VStr "u")]) [key]).
Proof.
  apply (constructed_with_token_authenticates quiet_world
           (VObj [("hostname", VStr "host"); ("basePath", VStr "/api/"); ("token", VStr "t");
                  ("credentials", VObj [("username", VStr "u"); ("password", VStr "p")])])
           (ApiClient.mk (VStr "host") (VNum 443) (VStr "https:") (VStr "/api/") VUndefined
              (VObj [("token", VStr "t")]))
           [("url", VStr "u")] "t" tt); reflexivity.
Defined.

(** ** The request executor, in general *)

Lemma formDataStep_keeps_all (W : World) (props : list (string * value)) :
  exists props',
    ApiClient.formDataStep W (VObj props) = VObj props'
    /\ forall key, key <> "data" -> key <> "headers" -> lookup key props' = lookup key props.
Proof.
  destruct (formDataStep_keeps W props "url") as [props' [Hf _]]; try discriminate.
  exists props'. split; [exact Hf|]. intros key Hd Hh.
  destruct (formDataStep_keeps W props key Hd Hh) as [p [Hp Hl]].
  rewrite Hf in Hp. now injection Hp as <-.
Qed.

Lemma authenticate_keeps_all (W : World) (this : ApiClient.t)
  (props : list (string * value)) (s : state W) :
  isEmpty (ApiClient._authCallback this) = true ->
  (exists text, toString (get (ApiClient._credentials this) ["token"]) = Some text) ->
  exists props',
    ApiClient._authenticate W this (VObj props) s = (Done (VObj props'), s, [])
    /\ forall key, key <> "headers" -> key <> "auth" -> lookup key props' = lookup key props.
Proof.
  intros Hcb Htok.
  destruct (authenticate_without_callback W this props "url" s Hcb Htok)
    as [props' [Hf _]]; try discriminate.
  exists props'. split; [exact Hf|]. intros key Hh Ha.
  destruct (authenticate_without_callback W this props key s Hcb Htok Hh Ha) as [p [Hp Hl]].
  rewrite Hf in Hp. now injection Hp as <-.
Qed.

(** A request whose arguments parse, on a client whose callback is not
    called, issues the parsed config as the form-data step and the
    authentication leave it, and hands the response to [respond]. *)
Lemma request_steps (W : World) (fuel : nat) (this : ApiClient.t) (arguments : list value)
  (props : list (string * value)) (s : state W) :
  ApiClient._parseArgs this arguments = Done (VObj props) ->
  isEmpty (ApiClient._authCallback this) = true ->
  (exists text, toString (get (ApiClient._credentials this) ["token"]) = Some text) ->
  exists issued,
    (forall key, kept_key key -> get (VObj issued) [key] = get (VObj props) [key])
    /\ ApiClient._request W fuel this arguments s
       = (response <- request W (VObj issued) ;; respond W fuel (VObj issued) response) s.
Proof.
  intros Hp Hcb Htok.
  destruct (formDataStep_keeps_all W props) as [p1 [H1 L1]].
  destruct (authenticate_keeps_all W this p1 s Hcb Htok) as [p2 [H2 L2]].
  exists p2. split.
  - intros key (Hd & Hh & Ha). rewrite !get_obj. now rewrite L2, L1.
  - unfold ApiClient._request. rewrite Hp. unfold bind at 1. unfold stop at 1.
    cbv zeta. rewrite H1. unfold bind at 1. rewrite H2.
    unfold respond. cbv zeta.
    match goal with
    | |- _ = ?y => destruct y as [[r s1] t]
    end.
    reflexivity.
Qed.

(** X18: without a pagination continuation in the config, a request whose
    transport answers returns the body of that one response itself, not a
    sequence, and the run consists of exactly one HTTP request. *)
Theorem request_returns_single_body (W : World) (fuel : nat) (this : ApiClient.t)
  (arguments : list value) (props : list (string * value)) (s : state W) :
  ApiClient._parseArgs this arguments = Done (VObj props) ->
  isEmpty (ApiClient._authCallback this) = true ->
  (exists text, toString (get (ApiClient._credentials this) ["token"]) = Some text) ->
  isNil (get (VObj props) ["paginationCallback"]) = true ->
  exists issued,
    (forall key, kept_key key -> get (VObj issued) [key] = get (VObj props) [key])
    /\ forall response s1,
         axios_request W (VObj issued) s = (Resolved response, s1) ->
         ApiClient._request W fuel this arguments s
         = (Done (get response ["data"]), s1, [EHttp (VObj issued)]).
Proof.
  intros Hp Hcb Htok Hnil.
  destruct (request_steps W fuel this arguments props s Hp Hcb Htok) as [issued [Hk Hr]].
  exists issued. split; [exact Hk|]. intros response s1 Hax.
  rewrite Hr. unfold bind, request. rewrite Hax. cbn [of_settled].
  unfold respond. cbv zeta.
  rewrite (Hk "paginationCallback") by (repeat split; discriminate).
  rewrite Hnil. reflexivity.
Qed.

Lemma request_returns_single_body_witness :
  exists issued,
    (forall key, kept_key key ->
       get (VObj issued) [key]
       = get (VObj [("url", VStr "https://host/api/widgets"); ("method", VStr "get");
                    ("data", VNull); ("params", VNull)]) [key])
    /\ forall response s1,
         axios_request quiet_world (VObj issued) tt = (Resolved response, s1) ->
         ApiClient._request quiet_world 0 host_client [VStr "widgets"; VStr "get"] tt
         = (Done (get response ["data"]), s1, [EHttp (VObj issued)]).
Proof.
  apply (request_returns_single_body quiet_world 0 host_client [VStr "widgets"; VStr "get"]
           [("url", VStr "https://host/api/widgets"); ("method", VStr "get");
            ("data", VNull); ("params", VNull)] tt).
  - vm_compute. reflexivity.
  - reflexivity.
  - eexists. reflexivity.
  - reflexivity.
Defined.

(** X19: a failure of the transport on the first request is the failure of
    the call, unchanged, with or without a pagination continuation; the one
    HTTP request is the only event and nothing is retried. *)
Theorem request_propagates_transport_failure (W : World) (fuel : nat) (this : ApiClient.t)
  (arguments : list value) (props : list (string * value)) (s : state W) :
  ApiClient._parseArgs this arguments = Done (VObj props) ->
  isEmpty (ApiClient._authCallback this) = true ->
  (exists text, toString (get (ApiClient._credentials this) ["token"]) = Some text) ->
  exists issued,
    (forall key, kept_key key -> get (VObj issued) [key] = get (VObj props) [key])
    /\ forall e s1,
         axios_request W (VObj issued) s = (Failed e, s1) ->
         ApiClient._request W fuel this arguments s = (Fail e, s1, [EHttp (VObj issued)]).
Proof.
  intros Hp Hcb Htok.
  destruct (request_steps W fuel this arguments props s Hp Hcb Htok) as [issued [Hk Hr]].
  exists issued. split; [exact Hk|]. intros e s1 Hax.
  rewrite Hr. unfold bind, request. now rewrite Hax.
Qed.

Lemma request_propagates_transport_failure_witness :
  let failing : World :=
    mkWorld unit (fun _ s => (Failed (VStr "ECONNREFUSED"), s))
      (fun _ args s => ((args, Normal VUndefined), s)) "boundary" in
  exists issued,
    (forall key, kept_key key ->
       get (VObj issued) [key]
       = get (VObj [("url", VStr "https://host/api/widgets"); ("method", VStr "get");
                    ("data", VNull); ("params", VNull)]) [key])
    /\ forall e s1,
         axios_request failing (VObj issued) tt = (Failed e, s1) ->
         ApiClient._request failing 0 host_client [VStr "widgets"; VStr "get"] tt
         = (Fail e, s1, [EHttp (VObj issued)]).
Proof.
  apply (request_propagates_transport_failure
           (mkWorld unit (fun _ s => (Failed (VStr "ECONNREFUSED"), s))
              (fun _ args s => ((args, Normal VUndefined), s)) "boundary")
           0 host_client [VStr "widgets"; VStr "get"]
           [("url", VStr "https://host/api/widgets"); ("method", VStr "get");
            ("data", VNull); ("params", VNull)] tt).
  - vm_compute. reflexivity.
  - reflexivity.
  - eexists. reflexivity.
Defined.

(** X20: with a pagination continuation that returns an absent value for
    the first response, the call returns a sequence that holds the one
    response body, and the run is the HTTP request followed by the call of
    the continuation with the body and the issued config. *)
Theorem request_single_page (W : World) (fuel : nat) (this : ApiClient.t)
  (arguments : list value) (props : list (string * value)) (id : nat)
  (fprops : list (string * value)) (s : state W) :
  ApiClient._parseArgs this arguments = Done (VObj props) ->
  isEmpty (ApiClient._authCallback this) = true ->
  (exists text, toString (get (ApiClient._credentials this) ["token"]) = Some text) ->
  get (VObj props) ["paginationCallback"] = VFun id fprops ->
  exists issued,
    (forall key, kept_key key -> get (VObj issued) [key] = get (VObj props) [key])
    /\ forall response s1 args1 next s2,
         axios_request W (VObj issued) s = (Resolved response, s1) ->
         invoke W id [get response ["data"]; VObj issued] s1 = ((args1, Normal next), s2) ->
         isNil next = true ->
         ApiClient._request W fuel this arguments s
         = (Done (VArr [nth 0 args1 (get response ["data"])]), s2,
            [EHttp (VObj issued);
             ECall (VFun id fprops) [get response ["data"]; VObj issued]]).
Proof.
  intros Hp Hcb Htok Hpc.
  destruct (request_steps W fuel this arguments props s Hp Hcb Htok) as [issued [Hk Hr]].
  exists issued. split; [exact Hk|]. intros response s1 args1 next s2 Hax Hinv Hnext.
  rewrite Hr. unfold bind at 1. unfold request. rewrite Hax. cbn [of_settled].
  unfold respond. cbv zeta.
  rewrite (Hk "paginationCallback") by (repeat split; discriminate).
  rewrite Hpc. cbn [isNil negb]. unfold bind at 1. unfold call. rewrite Hinv.
  cbn [fst snd]. rewrite Hnext. reflexivity.
Qed.

Lemma request_single_page_witness :
  exists issued,
    (forall key, kept_key key ->
       get (VObj issued) [key]
       = get (VObj [("paginationCallback", VFun 0 []);
                    ("url", VStr "https://host/api/widgets"); ("method", VStr "get");
                    ("data", VNull); ("params", VNull)]) [key])
    /\ forall response s1 args1 next s2,
         axios_request quiet_world (VObj issued) tt = (Resolved response, s1) ->
         invoke quiet_world 0 [get response ["data"]; VObj issued] s1
         = ((args1, Normal next), s2) ->
         isNil next = true ->
         ApiClient._request quiet_world 0 host_client
           [VStr "widgets"; VObj [("paginationCallback", VFun 0 [])]; VStr "get"] tt
         = (Done (VArr [nth 0 args1 (get response ["data"])]), s2,
            [EHttp (VObj issued);
             ECall (VFun 0 []) [get response ["data"]; VObj issued]]).
Proof.
  apply (request_single_page quiet_world 0 host_client
           [VStr "widgets"; VObj [("paginationCallback", VFun 0 [])]; VStr "get"]
           [("paginationCallback", VFun 0 []);
            ("url", VStr "https://host/api/widgets"); ("method", VStr "get");
            ("data", VNull); ("params", VNull)] 0 [] tt).
  - vm_compute. reflexivity.
  - reflexivity.
  - eexists. reflexivity.
  - reflexivity.
Defined.

(** X21: a [paginationCallback] that is present and is no function makes the
    call fail with a [TypeError] once the first response has arrived: the
    HTTP request has been issued, its body is lost. *)
Theorem request_pagination_not_callable (W : World) (fuel : nat) (this : ApiClient.t)
  (arguments : list value) (props : list (string * value)) (s : state W) :
  ApiClient._parseArgs this arguments = Done (VObj props) ->
  isEmpty (ApiClient._authCallback this) = true ->
  (exists text, toString (get (ApiClient._credentials this) ["token"]) = Some text) ->
  isNil (get (VObj props) ["paginationCallback"]) = false ->
  (forall id fprops, get (VObj props) ["paginationCallback"] <> VFun id fprops) ->
  exists issued,
    (forall key, kept_key key -> get (VObj issued) [key] = get (VObj props) [key])
    /\ forall response s1,
         axios_request W (VObj issued) s = (Resolved response, s1) ->
         ApiClient._request W fuel this arguments s
         = (Fail TypeError, s1, [EHttp (VObj issued)]).
Proof.
  intros Hp Hcb Htok Hnn Hnf.
  destruct (request_steps W fuel this arguments props s Hp Hcb Htok) as [issued [Hk Hr]].
  exists issued. split; [exact Hk|]. intros response s1 Hax.
  rewrite Hr. unfold bind at 1. unfold request. rewrite Hax. cbn [of_settled].
  unfold respond. cbv zeta.
  rewrite (Hk "paginationCallback") by (repeat split; discriminate).
  rewrite Hnn. cbn [negb]. unfold bind at 1. unfold call.
  destruct (get (VObj props) ["paginationCallback"]) eqn:E; try reflexivity.
  exfalso. now apply (Hnf id props0).
Qed.

Lemma request_pagination_not_callable_witness :
  exists issued,
    (forall key, kept_key key ->
       get (VObj issued) [key]
       = get (VObj [("paginationCallback", VStr "next");
                    ("url", VStr "https://host/api/widgets"); ("method", VStr "get");
                    ("data", VNull); ("params", VNull)]) [key])
    /\ forall response s1,
         axios_request quiet_world (VObj issued) tt = (Resolved response, s1) ->
         ApiClient._request quiet_world 0 host_client
           [VStr "widgets"; VObj [("paginationCallback", VStr "next")]; VStr "get"] tt
         = (Fail TypeError, s1, [EHttp (VObj issued)]).
Proof.
  apply (request_pagination_not_callable quiet_world 0 host_client
           [VStr "widgets"; VObj [("paginationCallback", VStr "next")]; VStr "get"]
           [("paginationCallback", VStr "next");
            ("url", VStr "https://host/api/widgets"); ("method", VStr "get");
            ("data", VNull); ("params", VNull)] tt).
  - vm_compute. reflexivity.
  - reflexivity.
  - eexists. reflexivity.
  - reflexivity.
  - discriminate.
Defined.

(** ** The pagination loop, in general *)

(** One turn of [paginationRequest], case by case. *)
Lemma paginationRequest_turn (W : World) (fuel : nat) (callback : value) (acc : list value)
  (config : value) (s : state W) :
  ApiClient.paginationRequest W (S fuel) callback acc config s
  = match axios_request W config s with
    | (Resolved response, s1) =>
        match callback with
        | VFun id _ =>
            match invoke W id [get response ["data"]; config] s1 with
            | ((args1, Normal next), s2) =>
                if negb (isNil next) then
                  match ApiClient.paginationRequest W fuel callback
                          (acc ++ [nth 0 args1 (get response ["data"])])
                          (nth 1 args1 config) s2 with
                  | (r, s3, t) =>
                      (r, s3,
                       EHttp config :: ECall callback [get response ["data"]; config] :: t)
                  end
                else (Done (acc ++ [nth 0 args1 (get response ["data"])]), s2,
                      [EHttp config; ECall callback [get response ["data"]; config]])
            | ((_, Abrupt e), s2) =>
                (Fail e, s2, [EHttp config; ECall callback [get response ["data"]; config]])
            end
        | _ => (Fail TypeError, s1, [EHttp config])
        end
    | (Failed e, s1) => (Fail e, s1, [EHttp config])
    | (Never, s1) => (Pend, s1, [EHttp config])
    end.
Proof.
  cbn [ApiClient.paginationRequest]. unfold bind at 1. unfold request.
  destruct (axios_request W config s) as [[response|e|] s1]; cbn [of_settled];
    try reflexivity.
  unfold bind at 1. unfold call.
  destruct callback; try reflexivity.
  destruct (invoke W id [get response ["data"]; config] s1) as [[args1 [next|e]] s2];
    [|reflexivity].
  cbn [fst snd]. destruct (negb (isNil next)); [|reflexivity].
  destruct (ApiClient.paginationRequest W fuel (VFun id props)
              (acc ++ [nth 0 args1 (get response ["data"])]) (nth 1 args1 config) s2)
    as [[r s3] t].
  reflexivity.
Qed.

(** X22: when the continuation leaves its arguments alone, every HTTP
    request of the pagination loop is issued with the descriptor the loop
    was entered with, whatever the continuation returns: the descriptor it
    returns is only tested for absence. *)
Theorem pagination_repeats_descriptor (W : World) (fuel : nat) (callback : value)
  (acc : list value) (config : value) (s : state W) :
  leaves_arguments W ->
  Forall (fun issued => issued = config)
    (http_requests (snd (ApiClient.paginationRequest W fuel callback acc config s))).
Proof.
  intros Hleave. revert acc s. induction fuel as [|fuel IH]; intros acc s.
  - constructor.
  - rewrite paginationRequest_turn.
    destruct (axios_request W config s) as [[response|e|] s1];
      try (repeat constructor).
    destruct callback; try (repeat constructor).
    pose proof (Hleave id [get response ["data"]; config] s1) as Hargs.
    destruct (invoke W id [get response ["data"]; config] s1) as [[args1 [next|e]] s2];
      [|repeat constructor].
    cbn [fst] in Hargs. subst args1. cbn [nth].
    destruct (negb (isNil next)); [|repeat constructor].
    specialize (IH (acc ++ [get response ["data"]]) s2).
    destruct (ApiClient.paginationRequest W fuel (VFun id props)
                (acc ++ [get response ["data"]]) config s2) as [[r s3] t].
    cbn [snd http_requests] in *. constructor; [reflexivity|exact IH].
Qed.

Lemma pagination_repeats_descriptor_witness :
  Forall (fun issued => issued = page2)
    (http_requests
       (snd (ApiClient.paginationRequest paged_world 5 (VFun 0 []) [VNum 0] page2 1%nat))).
Proof.
  apply (pagination_repeats_descriptor paged_world 5 (VFun 0 []) [VNum 0] page2 1%nat).
  intros id args st. reflexivity.
Defined.

(** X23: the pagination loop only appends to the sequence of response
    bodies: when it returns, the sequence it was entered with is a prefix of
    the result, followed by one body for each HTTP request the loop issued. *)
Theorem pagination_accumulates_bodies (W : World) (fuel : nat) (callback : value)
  (acc : list value) (config : value) (s : state W)
  (result : list value) (s' : state W) (t : list event) :
  ApiClient.paginationRequest W fuel callback acc config s = (Done result, s', t) ->
  exists more, result = acc ++ more /\ List.length more = List.length (http_requests t).
Proof.
  revert acc config s result s' t.
  induction fuel as [|fuel IH]; intros acc config s result s' t H.
  - discriminate H.
  - rewrite paginationRequest_turn in H.
    destruct (axios_request W config s) as [[response|e|] s1]; try discriminate H.
    destruct callback; try discriminate H.
    destruct (invoke W id [get response ["data"]; config] s1) as [[args1 [next|e]] s2];
      [|discriminate H].
    destruct (negb (isNil next)).
    + destruct (ApiClient.paginationRequest W fuel (VFun id props)
                  (acc ++ [nth 0 args1 (get response ["data"])]) (nth 1 args1 config) s2)
        as [[r s3] t3] eqn:E.
      injection H as -> -> <-.
      destruct (IH _ _ _ _ _ _ E) as [more [Hr Hl]].
      exists (nth 0 args1 (get response ["data"]) :: more). split.
      * now rewrite Hr, <- app_assoc.
      * cbn [List.length http_requests]. now rewrite Hl.
    + injection H as <- <- <-.
      exists [nth 0 args1 (get response ["data"])]. split; reflexivity.
Qed.

Lemma pagination_accumulates_bodies_witness :
  exists more,
    [VNum 0; VNum 1; VNum 2] = [VNum 0] ++ more
    /\ List.length more
       = List.length
           (http_requests
              [EHttp page2; ECall (VFun 0 []) [VNum 1; page2];
               EHttp page2; ECall (VFun 0 []) [VNum 2; page2]]).
Proof.
  apply (pagination_accumulates_bodies paged_world 5 (VFun 0 []) [VNum 0] page2 1%nat
           [VNum 0; VNum 1; VNum 2] 3%nat
           [EHttp page2; ECall (VFun 0 []) [VNum 1; page2];
            EHttp page2; ECall (VFun 0 []) [VNum 2; page2]]).
  vm_compute. reflexivity.
Defined.

(** ** The form-data step, in general *)

(** X24: the form-data step writes the keys [data] and [headers] only:
    its result is a plain object in which every other key of the config (the
    URL, the method, the query, the pagination continuation, ...) has the
    value it had. *)
Theorem formDataStep_writes_data_and_headers (W : World) (props : list (string * value)) :
  exists props',
    ApiClient.formDataStep W (VObj props) = VObj props'
    /\ forall key, key <> "data" -> key <> "headers" ->
                   get (VObj props') [key] = get (VObj props) [key].
Proof.
  destruct (formDataStep_keeps_all W props) as [props' [Hf Hl]].
  exists props'. split; [exact Hf|]. intros key Hd Hh.
  rewrite !get_obj. now rewrite Hl.
Qed.

Lemma merge_holder (headers : value) (key : string) (v : value) :
  merge headers [(key, v)] = VObj (assoc_set key v (own headers)).
Proof. reflexivity. Qed.

Lemma get_or_holder (props : list (string * value)) (key : string) (default : value) :
  holder (get (VObj props) [key]) = true ->
  get_or (VObj props) [key] default = get (VObj props) [key].
Proof. unfold get_or. now destruct (get (VObj props) [key]). Qed.

Lemma prop_holder (headers : value) (h : string) :
  holder headers = true ->
  prop headers h = match lookup h (own headers) with Some v => v | None => VUndefined end.
Proof. destruct headers; try discriminate; reflexivity. Qed.

(** X25: when the step applies (the content-type header is exactly
    [multipart/form-data] and a body is present) on headers that are a map,
    the body of the result is a [FormData], its headers carry the lower-case
    [content-type] with the boundary of the form data, and every header of
    another name keeps its value: a header written [Content-Type] stays
    beside the new [content-type]. *)
Theorem formDataStep_declares_boundary (W : World) (props : list (string * value)) :
  let config := VObj props in
  holder (get config ["headers"]) = true ->
  has (get config ["headers"]) "undefined" = false ->
  strict_eq_str (content_type_header config) "multipart/form-data" = true ->
  isNil (get config ["data"]) = false ->
  let result := ApiClient.formDataStep W config in
  instanceofFormData (get result ["data"]) = true
  /\ get result ["headers"; "content-type"]
     = VStr ("multipart/form-data; boundary=" ++ form_boundary W)
  /\ forall h, h <> "content-type" -> get result ["headers"; h] = get config ["headers"; h].
Proof.
  intros config Hh Hu Hct Hd result. subst config result.
  unfold ApiClient.formDataStep. cbv zeta.
  rewrite (formDataStep_header props Hu), Hct, Hd. cbn [negb andb].
  assert (Hold : forall h, get (VObj props) ["headers"; h]
                           = match lookup h (own (get (VObj props) ["headers"])) with
                             | Some v => v
                             | None => VUndefined
                             end).
  { intros h. change (get (VObj props) ["headers"; h])
      with (if isNil (get (VObj props) ["headers"]) then VUndefined
            else prop (get (VObj props) ["headers"]) h).
    rewrite <- (prop_holder _ h Hh). now destruct (get (VObj props) ["headers"]). }
  assert (Hnew : forall p1, get (VObj p1) ["headers"] = get (VObj props) ["headers"] ->
            forall d, get (VObj p1) ["data"] = d ->
            let result := set (VObj p1) ["headers"]
                            (merge (get_or (VObj p1) ["headers"] (VObj []))
                               (ApiClient.getHeaders W)) in
            get result ["data"] = d
            /\ get result ["headers"; "content-type"]
               = VStr ("multipart/form-data; boundary=" ++ form_boundary W)
            /\ forall h, h <> "content-type" ->
                         get result ["headers"; h] = get (VObj props) ["headers"; h]).
  { intros p1 Hp1 d Hd1 res. subst res.
    rewrite get_or_holder by (now rewrite Hp1). rewrite Hp1.
    unfold ApiClient.getHeaders. rewrite merge_holder.
    change (set (VObj p1) ["headers"] ?x) with (VObj (assoc_set "headers" x p1)).
    repeat split.
    - rewrite get_other_after by discriminate. exact Hd1.
    - rewrite get_headers_after by reflexivity. unfold prop. cbn [own].
      now rewrite lookup_assoc_set_same.
    - intros h Hne. rewrite get_headers_after by reflexivity. unfold prop. cbn [own].
      rewrite lookup_assoc_set_other by (intros E; apply Hne; now symmetry).
      now rewrite Hold. }
  destruct (instanceofFormData (get (VObj props) ["data"])) eqn:Ei; cbn [negb].
  - destruct (Hnew props eq_refl _ eq_refl) as (H1 & H2 & H3).
    rewrite H1. repeat split; assumption.
  - change (set (VObj props) ["data"] ?x) with (VObj (assoc_set "data" x props)).
    match goal with
    | |- context [assoc_set "data" ?x props] =>
        destruct (Hnew (assoc_set "data" x props)
                    (get_other_after props "data" "headers" x ltac:(discriminate)) x)
          as (H1 & H2 & H3)
    end.
    { now rewrite get_obj, lookup_assoc_set_same. }
    rewrite H1. repeat split; assumption.
Qed.

Lemma formDataStep_declares_boundary_witness :
  let props := [("headers", VObj [("Content-Type", VStr "multipart/form-data");
                                  ("Accept", VStr "text/plain")]);
                ("data", VObj [("a", VNum 1)])] in
  let config := VObj props in
  let result := ApiClient.formDataStep quiet_world config in
  instanceofFormData (get result ["data"]) = true
  /\ get result ["headers"; "content-type"]
     = VStr ("multipart/form-data; boundary=" ++ form_boundary quiet_world)
  /\ forall h, h <> "content-type" -> get result ["headers"; h] = get config ["headers"; h].
Proof.
  apply (formDataStep_declares_boundary quiet_world
           [("headers", VObj [("Content-Type", VStr "multipart/form-data");
                              ("Accept", VStr "text/plain")]);
            ("data", VObj [("a", VNum 1)])]); reflexivity.
Defined.

(** ** The URL builder and the CRUD facade, in general *)

Lemma flatten1_flat (v : value) : Forall (fun x => flatten1 x = [x]) (flatten1 v).
Proof.
  induction v using value_nested_ind; try (repeat constructor).
  cbn [flatten1]. rewrite <- flat_map_concat_map. apply Forall_flat_map. exact H.
Qed.

Lemma flattenDeep_of_flat (l : list value) :
  Forall (fun x => flatten1 x = [x]) l -> flattenDeep l = l.
Proof.
  unfold flattenDeep. induction 1 as [|x l Hx _ IH]; [reflexivity|].
  cbn [List.map List.concat]. now rewrite Hx, IH.
Qed.

Lemma flattenDeep_flat (l : list value) : flattenDeep (flattenDeep l) = flattenDeep l.
Proof.
  apply flattenDeep_of_flat. unfold flattenDeep.
  rewrite <- flat_map_concat_map. apply Forall_flat_map.
  apply Forall_forall. intros x _. apply flatten1_flat.
Qed.

(** X26: the URL builder sees its segments flattened: passing the segments
    in arrays, nested to any depth, gives the URL of the segments passed one
    by one in the same order. *)
Theorem buildUrl_flattens_segments (this : ApiClient.t) (segments : list value) :
  ApiClient._buildUrl this (flattenDeep segments) = ApiClient._buildUrl this segments
  /\ ApiClient._buildUrl this [VArr segments] = ApiClient._buildUrl this segments.
Proof.
  split.
  - unfold ApiClient._buildUrl. now rewrite flattenDeep_flat.
  - unfold ApiClient._buildUrl.
    replace (flattenDeep [VArr segments]) with (flattenDeep segments); [reflexivity|].
    unfold flattenDeep. cbn [List.map List.concat flatten1]. now rewrite app_nil_r.
Qed.

(** X27: the URL of the facade: for an absent id the slug is the base path
    and the absent id, which the join renders as the base path followed by a
    slash; for a supplied id the slug is the base path alone. *)
Theorem resolveUrlSlug_url (this : ApiClient.t) (api : EntityCrudApi.t) (base : string)
  (id : value) :
  EntityCrudApi._entityUrlBasePathname api = VStr base ->
  ApiClient._buildUrl this [EntityCrudApi._resolveUrlSlug api id]
  = ApiClient._buildUrl this [VStr (if isNil id then (base ++ "/")%string else base)].
Proof.
  intros Hb. unfold EntityCrudApi._resolveUrlSlug. cbv zeta. rewrite Hb.
  unfold ApiClient._buildUrl.
  destruct (isNil id) eqn:E; [|reflexivity].
  replace (join (flattenDeep [VArr [VStr base; id]]) "/")
    with (join (flattenDeep [VStr (base ++ "/")%string]) "/"); [reflexivity|].
  destruct id; try discriminate E; reflexivity.
Qed.

Lemma resolveUrlSlug_url_witness :
  ApiClient._buildUrl host_client
    [EntityCrudApi._resolveUrlSlug (EntityCrudApi.constructor host_client (VStr "widgets"))
       VUndefined]
  = ApiClient._buildUrl host_client
      [VStr (if isNil VUndefined then ("widgets" ++ "/")%string else "widgets")].
Proof.
  apply (resolveUrlSlug_url host_client
           (EntityCrudApi.constructor host_client (VStr "widgets")) "widgets" VUndefined).
  reflexivity.
Defined.

Lemma formDataStep_without_headers (W : World) (props : list (string * value)) :
  get (VObj props) ["headers"] = VUndefined ->
  ApiClient.formDataStep W (VObj props) = VObj props.
Proof.
  intros Hh. unfold ApiClient.formDataStep. cbv zeta. rewrite Hh.
  assert (Hg : forall k, get (VObj props) ["headers"; k] = VUndefined).
  { intros k. change (get (VObj props) ["headers"; k])
      with (if isNil (get (VObj props) ["headers"]) then VUndefined
            else prop (get (VObj props) ["headers"]) k).
    now rewrite Hh. }
  now rewrite Hg.
Qed.

(** A verb call with a slug, a payload and an absent config, on a client
    whose callback is not called: the first event is the HTTP request with
    the built URL, the method of the verb, and the payload as body or as
    query. *)
Lemma verb_with_payload (W : World) (fuel : nat) (this : ApiClient.t)
  (slug payload r0 : value) (verb url : string) (s : state W) :
  config_object_arg slug = false ->
  config_object_arg payload = true ->
  ApiClient._deepResolve payload = Resolved r0 ->
  ApiClient._buildUrl this [slug] = Some url ->
  isEmpty (ApiClient._authCallback this) = true ->
  (exists text, toString (get (ApiClient._credentials this) ["token"]) = Some text) ->
  exists issued rest out s',
    ApiClient._request W fuel this [slug; payload; VUndefined; VStr verb] s
    = (out, s', EHttp issued :: rest)
    /\ get issued ["url"] = VStr url
    /\ get issued ["method"] = VStr verb
    /\ get issued ["data"]
       = (if isNil r0 then VNull else if body_method (toLowerCase verb) then r0 else VNull)
    /\ get issued ["params"]
       = (if isNil r0 then VNull else if body_method (toLowerCase verb) then VNull else r0).
Proof.
  intros Hslug Hpay Hr Hu Hcb Htok.
  assert (Hs : ends_in_slug [slug]).
  { unfold ends_in_slug, takeRightWhile. cbn. now rewrite Hslug. }
  destruct (parseArgs_two_configs this [slug] payload VUndefined (VStr verb) r0 VUndefined
              verb url Hs Hpay eq_refl Hr eq_refl Hu eq_refl) as [props [Hp Hg]].
  cbn [app] in Hp. cbn [isNil] in Hg.
  assert (Hkey : forall key,
             get (VObj props) [key]
             = inferred (VStr url) (VStr verb)
                 (if isNil r0 then VNull else if body_method (toLowerCase verb) then r0 else VNull)
                 (if isNil r0 then VNull else if body_method (toLowerCase verb) then VNull else r0)
                 key).
  { intros key. rewrite Hg. now rewrite get_obj. }
  pose proof (formDataStep_without_headers W props (Hkey "headers")) as H1.
  destruct (authenticate_keeps_all W this props s Hcb Htok) as [p2 [H2 L2]].
  assert (Hreq : exists rest out s',
             ApiClient._request W fuel this [slug; payload; VUndefined; VStr verb] s
             = (out, s', EHttp (VObj p2) :: rest)).
  { unfold ApiClient._request. rewrite Hp. unfold bind at 1. unfold stop at 1.
    cbv zeta. rewrite H1. unfold bind at 1. rewrite H2.
    unfold bind at 1. unfold request at 1.
    destruct (axios_request W (VObj p2) s) as [r s1].
    destruct r as [response| e |]; cbn [of_settled].
    - match goal with
      | |- context [(if ?c then ?a else ?b) s1] =>
          destruct ((if c then a else b) s1) as [[r2 s2] t2]
      end.
      exists t2, r2, s2. reflexivity.
    - exists [], (Fail e), s1. reflexivity.
    - exists [], Pend, s1. reflexivity. }
  destruct Hreq as (rest & out & s' & Hreq).
  exists (VObj p2), rest, out, s'. split; [exact Hreq|].
  assert (Hsame : forall key, key <> "headers" -> key <> "auth" ->
                              get (VObj p2) [key] = get (VObj props) [key]).
  { intros key Hh Ha. rewrite !get_obj. now rewrite L2. }
  repeat split; rewrite Hsame by discriminate; rewrite Hkey; reflexivity.
Qed.

(** X28: the facade methods that send a body: with an absent config,
    [create(data)] issues a POST and [update(id, data)] a PUT whose [data] is
    the resolved first payload and whose [params] is [null]; the URL is the
    one built from the slug of the facade. *)
Theorem facade_body_verbs (W : World) (fuel : nat) (api : EntityCrudApi.t)
  (id data r0 : value) (s : state W) :
  let client := EntityCrudApi._apiClient api in
  config_object_arg data = true ->
  ApiClient._deepResolve data = Resolved r0 ->
  isNil r0 = false ->
  isEmpty (ApiClient._authCallback client) = true ->
  (exists text, toString (get (ApiClient._credentials client) ["token"]) = Some text) ->
  (forall url,
      ApiClient._buildUrl client [EntityCrudApi._resolveUrlSlug api VUndefined] = Some url ->
      exists issued rest out s',
        EntityCrudApi.create W fuel api data VUndefined s = (out, s', EHttp issued :: rest)
        /\ get issued ["url"] = VStr url /\ get issued ["method"] = VStr "post"
        /\ get issued ["data"] = r0 /\ get issued ["params"] = VNull)
  /\ (forall url,
        ApiClient._buildUrl client [EntityCrudApi._resolveUrlSlug api id] = Some url ->
        exists issued rest out s',
          EntityCrudApi.update W fuel api id data VUndefined s = (out, s', EHttp issued :: rest)
          /\ get issued ["url"] = VStr url /\ get issued ["method"] = VStr "put"
          /\ get issued ["data"] = r0 /\ get issued ["params"] = VNull).
Proof.
  intros client Hpay Hr Hn Hcb Htok.
  assert (Hslug : forall i, config_object_arg (EntityCrudApi._resolveUrlSlug api i) = false).
  { intros i. unfold EntityCrudApi._resolveUrlSlug. now destruct (isNil i). }
  split; intros url Hu.
  - destruct (verb_with_payload W fuel client _ data r0 "post" url s
                (Hslug VUndefined) Hpay Hr Hu Hcb Htok)
      as (issued & rest & out & s' & Hreq & H1 & H2 & H3 & H4).
    rewrite Hn in H3, H4. exists issued, rest, out, s'. repeat split; assumption.
  - destruct (verb_with_payload W fuel client _ data r0 "put" url s
                (Hslug id) Hpay Hr Hu Hcb Htok)
      as (issued & rest & out & s' & Hreq & H1 & H2 & H3 & H4).
    rewrite Hn in H3, H4. exists issued, rest, out, s'. repeat split; assumption.
Qed.

Lemma facade_body_verbs_witness :
  let api := EntityCrudApi.constructor host_client (VStr "widgets") in
  let client := EntityCrudApi._apiClient api in
  let data := VObj [("name", VStr "n")] in
  (forall url,
      ApiClient._buildUrl client [EntityCrudApi._resolveUrlSlug api VUndefined] = Some url ->
      exists issued rest out s',
        EntityCrudApi.create quiet_world 0 api data VUndefined tt
        = (out, s', EHttp issued :: rest)
        /\ get issued ["url"] = VStr url /\ get issued ["method"] = VStr "post"
        /\ get issued ["data"] = data /\ get issued ["params"] = VNull)
  /\ (forall url,
        ApiClient._buildUrl client [EntityCrudApi._resolveUrlSlug api (VNum 7)] = Some url ->
        exists issued rest out s',
          EntityCrudApi.update quiet_world 0 api (VNum 7) data VUndefined tt
          = (out, s', EHttp issued :: rest)
          /\ get issued ["url"] = VStr url /\ get issued ["method"] = VStr "put"
          /\ get issued ["data"] = data /\ get issued ["params"] = VNull).
Proof.
  apply (facade_body_verbs quiet_world 0 (EntityCrudApi.constructor host_client (VStr "widgets"))
           (VNum 7) (VObj [("name", VStr "n")]) (VObj [("name", VStr "n")]) tt).
  - reflexivity.
  - reflexivity.
  - reflexivity.
  - reflexivity.
  - eexists. reflexivity.
Defined.

(** X29: the facade methods that send a query: with an absent config,
    [list(params)] and [read(id, params)] issue a GET and [delete(id, params)]
    a DELETE whose [params] is the resolved first payload and whose [data]
    is [null]; the URL is the one built from the slug of the facade. *)
Theorem facade_query_verbs (W : World) (fuel : nat) (api : EntityCrudApi.t)
  (id params r0 : value) (s : state W) :
  let client := EntityCrudApi._apiClient api in
  config_object_arg params = true ->
  ApiClient._deepResolve params = Resolved r0 ->
  isNil r0 = false ->
  isEmpty (ApiClient._authCallback client) = true ->
  (exists text, toString (get (ApiClient._credentials client) ["token"]) = Some text) ->
  (forall url,
      ApiClient._buildUrl client [EntityCrudApi._resolveUrlSlug api VUndefined] = Some url ->
      exists issued rest out s',
        EntityCrudApi.list W fuel api params VUndefined s = (out, s', EHttp issued :: rest)
        /\ get issued ["url"] = VStr url /\ get issued ["method"] = VStr "get"
        /\ get issued ["params"] = r0 /\ get issued ["data"] = VNull)
  /\ (forall url,
        ApiClient._buildUrl client [EntityCrudApi._resolveUrlSlug api id] = Some url ->
        (exists issued rest out s',
            EntityCrudApi.read W fuel api id params VUndefined s
            = (out, s', EHttp issued :: rest)
            /\ get issued ["url"] = VStr url /\ get issued ["method"] = VStr "get"
            /\ get issued ["params"] = r0 /\ get issued ["data"] = VNull)
        /\ (exists issued rest out s',
               EntityCrudApi.delete W fuel api id params VUndefined s
               = (out, s', EHttp issued :: rest)
               /\ get issued ["url"] = VStr url /\ get issued ["method"] = VStr "delete"
               /\ get issued ["params"] = r0 /\ get issued ["data"] = VNull)).
Proof.
  intros client Hpay Hr Hn Hcb Htok.
  assert (Hslug : forall i, config_object_arg (EntityCrudApi._resolveUrlSlug api i) = false).
  { intros i. unfold EntityCrudApi._resolveUrlSlug. now destruct (isNil i). }
  split; [|split]; intros.
  - destruct (verb_with_payload W fuel client _ params r0 "get" url s
                (Hslug VUndefined) Hpay Hr H Hcb Htok)
      as (issued & rest & out & s' & Hreq & H1 & H2 & H3 & H4).
    rewrite Hn in H3, H4. exists issued, rest, out, s'. repeat split; assumption.
  - destruct (verb_with_payload W fuel client _ params r0 "get" url s
                (Hslug id) Hpay Hr H Hcb Htok)
      as (issued & rest & out & s' & Hreq & H1 & H2 & H3 & H4).
    rewrite Hn in H3, H4. exists issued, rest, out, s'. repeat split; assumption.
  - destruct (verb_with_payload W fuel client _ params r0 "delete" url s
                (Hslug id) Hpay Hr H Hcb Htok)
      as (issued & rest & out & s' & Hreq & H1 & H2 & H3 & H4).
    rewrite Hn in H3, H4. exists issued, rest, out, s'. repeat split; assumption.
Qed.

Lemma facade_query_verbs_witness :
  let api := EntityCrudApi.constructor host_client (VStr "widgets") in
  let client := EntityCrudApi._apiClient api in
  let params := VObj [("page", VNum 2)] in
  (forall url,
      ApiClient._buildUrl client [EntityCrudApi._resolveUrlSlug api VUndefined] = Some url ->
      exists issued rest out s',
        EntityCrudApi.list quiet_world 0 api params VUndefined tt
        = (out, s', EHttp issued :: rest)
        /\ get issued ["url"] = VStr url /\ get issued ["method"] = VStr "get"
        /\ get issued ["params"] = params /\ get issued ["data"] = VNull)
  /\ (forall url,
        ApiClient._buildUrl client [EntityCrudApi._resolveUrlSlug api (VNum 7)] = Some url ->
        (exists issued rest out s',
            EntityCrudApi.read quiet_world 0 api (VNum 7) params VUndefined tt
            = (out, s', EHttp issued :: rest)
            /\ get issued ["url"] = VStr url /\ get issued ["method"] = VStr "get"
            /\ get issued ["params"] = params /\ get issued ["data"] = VNull)
        /\ (exists issued rest out s',
               EntityCrudApi.delete quiet_world 0 api (VNum 7) params VUndefined tt
               = (out, s', EHttp issued :: rest)
               /\ get issued ["url"] = VStr url /\ get issued ["method"] = VStr "delete"
               /\ get issued ["params"] = params /\ get issued ["data"] = VNull)).
Proof.
  apply (facade_query_verbs quiet_world 0
           (EntityCrudApi.constructor host_client (VStr "widgets"))
           (VNum 7) (VObj [("page", VNum 2)]) (VObj [("page", VNum 2)]) tt).
  - reflexivity.
  - reflexivity.
  - reflexivity.
  - reflexivity.
  - eexists. reflexivity.
Defined.
